(** * Presentation controller: command dispatch, slide session and BLE link supervision

    A shallow embedding of [presentation_controller.py] (class
    [PresentationSystem]) and the properties of its command debounce, of its
    slide cursor, of the start and end of a presentation, and of the loop
    that keeps the BLE link to the remote control alive.

    Conventions of the embedding.
    - Methods that mutate [self] are computations in a state monad whose
      outcome is a value or a raised exception; the monad also records, in
      order, what the method logged and which calls it made on the outside
      world (the event trace).
    - [time.time()] and the sleeps are exact rationals ([Q]); the clock
      reading of [handle_command] is an argument.
    - The outside world (converter, display, BLE stack) is given as data:
      what each external call answers. *)

From Stdlib Require Import String Ascii ZArith QArith Bool Lia Lqa List.
From ExtLib Require Import Structures.Monad Structures.MonadExc Structures.MonadState.
Import ListNotations.
Import MonadNotation.

Local Open Scope monad_scope.
Local Open Scope string_scope.
Local Open Scope list_scope.

(* ===================================================================== *)
(** ** Exceptions, log lines and events *)
(* ===================================================================== *)

(** The exceptions the program can meet; all are subclasses of [Exception]. *)
Inductive exn : Type :=
| BTLEException (msg : string)       (* raised by a bluepy call *)
| UnicodeDecodeError                 (* bytes.decode() on invalid UTF-8 *)
| IndexError                         (* [...][0] on an empty list *)
| AttributeError (attr : string)     (* self.<attr> before it was ever set *)
| TclError (msg : string)            (* call on a destroyed widget, drawing error *)
| CalledProcessError (msg : string)  (* subprocess.run(..., check=True) *)
| FileNotFoundError (msg : string)
| RuntimeError (msg : string).       (* fitz / PIL / any other failure *)

Inductive level : Type := INFO | WARNING | ERROR.

(** One constructor per log line of the source (the f-string templates, with
    their holes as arguments). *)
Inductive message : Type :=
(* handle_command *)
| Received_command (command : string)
| Ignoring_command_due_to_debounce (command : string)
| Moving_selection_up
| Moving_selection_down
| Selected_item (name : string)
| SELECT_starting_presentation
| Showing_previous_slide
| Showing_next_slide
| SELECT_ending_presentation
(* start_presentation, load_presentation *)
| Starting_presentation (selected : string)
| Loading_presentation (name : string)
| Converting_presentation_to_PDF
| Converting_PDF_to_images
| Converted_slides (n : Z)
| Error_loading_presentation (e : exn)
(* show_current_slide, show_next_slide, show_previous_slide *)
| Showing_slide (i n : Z)
| Canvas_not_ready
| Displayed_slide
| Canvas_has_invalid_dimensions
| Error_displaying_slide (e : exn)
| Moved_to_next_slide (i : Z)
| Moved_to_previous_slide (i : Z)
(* end_presentation *)
| Ending_presentation
(* maintain_ble_connection *)
| Connecting_attempt (attempt max_retries : Z)
| Connected
| Connection_attempt_failed (attempt : Z) (e : exn)
| Found_descriptor (uuid : string)
| Found_CCCD_descriptor (handle : Z)
| CCCD_not_found
| Enabling_notifications (handle : Z)
| Notifications_enabled
| Failed_to_enable_notifications (attempt : Z) (e : exn)
| Ready_to_receive_notifications
| Notification_error (e : exn)
| Service_setup_error (e : exn)
| BLE_Error (e : exn).

Inductive addr_type : Type := ADDR_TYPE_PUBLIC | ADDR_TYPE_RANDOM.

(** Text of the [ble_status] label. *)
Inductive ble_status_text : Type := Status_Connected | Status_Disconnected.

(** Work handed to the Tk main loop with [root.after(0, ...)]. *)
Inductive callback : Type :=
| Call_handle_command (command : string)
| Config_ble_status (text : ble_status_text).

Inductive event : Type :=
| EvLog (lvl : level) (msg : message)            (* logger.info / warning / error *)
| EvSleep (seconds : Q)                          (* time.sleep *)
| EvAfter (cb : callback)                        (* self.root.after(0, cb) *)
| EvConnect (t : addr_type)                      (* btle.Peripheral(MAC, addrType=t) *)
| EvSetDelegate
| EvGetService
| EvGetCharacteristics
| EvGetDescriptors
| EvWrite (handle : Z) (with_response : bool)    (* writeCharacteristic *)
| EvWait (timeout : Q)                           (* waitForNotifications *)
| EvDisconnect.                                  (* peripheral.disconnect() *)

(* ===================================================================== *)
(** ** The monad of methods *)
(* ===================================================================== *)

Inductive outcome (A : Type) : Type :=
| Val (a : A)          (* returned *)
| Exc (e : exn)        (* raised *)
| Blocked              (* an external call got no answer: the script of the
                          outside world ends here *)
| OutOfFuel.           (* a loop was cut by the bound on its iterations *)

Arguments Val {A} a.
Arguments Exc {A} e.
Arguments Blocked {A}.
Arguments OutOfFuel {A}.

Definition M (St A : Type) : Type := St -> outcome A * St * list event.

Section MonadOps.
Context {St : Type}.

Definition m_ret {A} (a : A) : M St A := fun s => (Val a, s, []).

Definition m_bind {A B} (m : M St A) (k : A -> M St B) : M St B :=
  fun s =>
    match m s with
    | (Val a, s1, t1) =>
        match k a s1 with (r, s2, t2) => (r, s2, t1 ++ t2) end
    | (Exc e, s1, t1) => (Exc e, s1, t1)
    | (Blocked, s1, t1) => (Blocked, s1, t1)
    | (OutOfFuel, s1, t1) => (OutOfFuel, s1, t1)
    end.

Definition m_raise {A} (e : exn) : M St A := fun s => (Exc e, s, []).

(** [try: m except Exception as e: h e]; what [m] did to [self] before it
    raised stays done. *)
Definition m_catch {A} (m : M St A) (h : exn -> M St A) : M St A :=
  fun s =>
    match m s with
    | (Exc e, s1, t1) =>
        match h e s1 with (r, s2, t2) => (r, s2, t1 ++ t2) end
    | r => r
    end.

Definition m_get : M St St := fun s => (Val s, s, []).
Definition m_put (s' : St) : M St unit := fun _ => (Val tt, s', []).

Definition update (f : St -> St) : M St unit := fun s => (Val tt, f s, []).
Definition emit (ev : event) : M St unit := fun s => (Val tt, s, [ev]).
Definition blocked {A} : M St A := fun s => (Blocked, s, []).
Definition out_of_fuel {A} : M St A := fun s => (OutOfFuel, s, []).

Definition logger_info (m : message) : M St unit := emit (EvLog INFO m).
Definition logger_warning (m : message) : M St unit := emit (EvLog WARNING m).
Definition logger_error (m : message) : M St unit := emit (EvLog ERROR m).
Definition time_sleep (seconds : Q) : M St unit := emit (EvSleep seconds).
Definition root_after (cb : callback) : M St unit := emit (EvAfter cb).
End MonadOps.

#[export] Instance Monad_M (St : Type) : Monad (M St) :=
  {| ret := @m_ret St; bind := @m_bind St |}.

#[export] Instance MonadExc_M (St : Type) : MonadExc exn (M St) :=
  {| raise := @m_raise St; catch := @m_catch St |}.

#[export] Instance MonadState_M (St : Type) : MonadState St (M St) :=
  {| get := @m_get St; put := @m_put St |}.

(** Projections of a run. *)
Definition result_of {St A} (r : outcome A * St * list event) : outcome A := fst (fst r).
Definition state_of {St A} (r : outcome A * St * list event) : St := snd (fst r).
Definition trace_of {St A} (r : outcome A * St * list event) : list event := snd r.

(* ===================================================================== *)
(** ** The application state touched by the Tk thread *)
(* ===================================================================== *)

(** A converted page held in memory ([PIL.Image]); only its identity matters. *)
Definition Image : Type := nat.

(** Text of the [status_bar] label. *)
Inductive status_text : Type :=
| Status_Ready
| Status_Found (n : nat)
| Status_No_presentations_found
| Status_Starting (selected : string)
| Status_Error_loading_presentation (e : exn)
| Status_Slide_of (i n : Z)
| Status_Error_displaying_slide
| Status_Presentation_ended.

(** [self.presentation_frame] with its [slide_canvas]: alive, showing the
    image of one slide or nothing, or destroyed. *)
Inductive frame : Type :=
| FrameLive (canvas : option Z)
| FrameDestroyed.

(** The [tk.Listbox]. [selectmode=tk.SINGLE], and every [selection_set] of
    the program follows a [selection_clear(0, tk.END)] or a
    [delete(0, tk.END)], so [curselection()] is the empty tuple or a tuple
    of one index. *)
Record Listbox : Type := {
  items : list string;
  curselection : option nat
}.

Definition listbox_size (l : Listbox) : Z := Z.of_nat (length (items l)).
Definition listbox_get (l : Listbox) (i : nat) : string := nth i (items l) "".
Definition selection_set (i : nat) (l : Listbox) : Listbox :=
  {| items := items l; curselection := Some i |}.
Definition selection_clear_all (l : Listbox) : Listbox :=
  {| items := items l; curselection := None |}.

Record PresentationSystem : Type := {
  presentation_list : Listbox;
  presentation_mode : bool;                (* False: navigation, True: presenting *)
  current_slide : Z;
  slides : list Z;
  slide_images : option (list Image);      (* None: attribute not set yet *)
  last_command_time : option Q;            (* None: attribute not set yet *)
  status_bar : status_text;
  main_frame_shown : bool;                 (* grid() / grid_remove() *)
  presentation_frame : option frame        (* None: attribute not set yet *)
}.

Definition set_presentation_list (v : Listbox) (s : PresentationSystem) :=
  {| presentation_list := v; presentation_mode := presentation_mode s;
     current_slide := current_slide s; slides := slides s;
     slide_images := slide_images s; last_command_time := last_command_time s;
     status_bar := status_bar s; main_frame_shown := main_frame_shown s;
     presentation_frame := presentation_frame s |}.

Definition set_presentation_mode (v : bool) (s : PresentationSystem) :=
  {| presentation_list := presentation_list s; presentation_mode := v;
     current_slide := current_slide s; slides := slides s;
     slide_images := slide_images s; last_command_time := last_command_time s;
     status_bar := status_bar s; main_frame_shown := main_frame_shown s;
     presentation_frame := presentation_frame s |}.

Definition set_current_slide (v : Z) (s : PresentationSystem) :=
  {| presentation_list := presentation_list s; presentation_mode := presentation_mode s;
     current_slide := v; slides := slides s;
     slide_images := slide_images s; last_command_time := last_command_time s;
     status_bar := status_bar s; main_frame_shown := main_frame_shown s;
     presentation_frame := presentation_frame s |}.

Definition set_slides (v : list Z) (s : PresentationSystem) :=
  {| presentation_list := presentation_list s; presentation_mode := presentation_mode s;
     current_slide := current_slide s; slides := v;
     slide_images := slide_images s; last_command_time := last_command_time s;
     status_bar := status_bar s; main_frame_shown := main_frame_shown s;
     presentation_frame := presentation_frame s |}.

Definition set_slide_images (v : option (list Image)) (s : PresentationSystem) :=
  {| presentation_list := presentation_list s; presentation_mode := presentation_mode s;
     current_slide := current_slide s; slides := slides s;
     slide_images := v; last_command_time := last_command_time s;
     status_bar := status_bar s; main_frame_shown := main_frame_shown s;
     presentation_frame := presentation_frame s |}.

Definition set_last_command_time (v : option Q) (s : PresentationSystem) :=
  {| presentation_list := presentation_list s; presentation_mode := presentation_mode s;
     current_slide := current_slide s; slides := slides s;
     slide_images := slide_images s; last_command_time := v;
     status_bar := status_bar s; main_frame_shown := main_frame_shown s;
     presentation_frame := presentation_frame s |}.

Definition set_status_bar (v : status_text) (s : PresentationSystem) :=
  {| presentation_list := presentation_list s; presentation_mode := presentation_mode s;
     current_slide := current_slide s; slides := slides s;
     slide_images := slide_images s; last_command_time := last_command_time s;
     status_bar := v; main_frame_shown := main_frame_shown s;
     presentation_frame := presentation_frame s |}.

Definition set_main_frame_shown (v : bool) (s : PresentationSystem) :=
  {| presentation_list := presentation_list s; presentation_mode := presentation_mode s;
     current_slide := current_slide s; slides := slides s;
     slide_images := slide_images s; last_command_time := last_command_time s;
     status_bar := status_bar s; main_frame_shown := v;
     presentation_frame := presentation_frame s |}.

Definition set_presentation_frame (v : option frame) (s : PresentationSystem) :=
  {| presentation_list := presentation_list s; presentation_mode := presentation_mode s;
     current_slide := current_slide s; slides := slides s;
     slide_images := slide_images s; last_command_time := last_command_time s;
     status_bar := status_bar s; main_frame_shown := main_frame_shown s;
     presentation_frame := v |}.

(** Methods of the Tk thread. *)
Abbreviation G := (M PresentationSystem).

(* ===================================================================== *)
(** ** The outside world of the Tk thread *)
(* ===================================================================== *)

(** What the conversion pipeline of [load_presentation] meets, stage by
    stage: the LibreOffice run, the test that the PDF exists, [fitz.open],
    and for each page of the document its rendering to an in-memory image
    ([get_pixmap], [save], [Image.open]). The temporary directory itself is
    taken to be created and removed without error. *)
Record converter : Type := {
  libreoffice : option exn;              (* Some e: subprocess.run raised e *)
  pdf_exists : bool;                     (* os.path.exists(pdf_path) *)
  fitz_open : exn + list (exn + Image)   (* inl e: fitz.open raised e *)
}.

(** What [show_current_slide] meets when it draws: whether the canvas has a
    size, whether the screen has one, and whether scaling and drawing the
    image raise. *)
Record display : Type := {
  canvas_ready : bool;         (* canvas_width > 0 and canvas_height > 0 *)
  screen_ready : bool;         (* the same test on the screen dimensions *)
  draw_error : option exn      (* Some e: resize / PhotoImage / create_image raised e *)
}.

Record gui_env : Type := {
  conv : converter;
  disp : display
}.

(** The conversion fails when one of its stages raises. *)
Definition page_fails (p : exn + Image) : bool :=
  match p with inl _ => true | inr _ => false end.

Definition conversion_fails (c : converter) : bool :=
  match libreoffice c with
  | Some _ => true
  | None =>
      if pdf_exists c then
        match fitz_open c with
        | inl _ => true
        | inr pages => existsb page_fails pages
        end
      else true
  end.

(* ===================================================================== *)
(** ** end_presentation, show_current_slide, show_next_slide, show_previous_slide *)
(* ===================================================================== *)

Definition end_presentation : G unit :=
  logger_info Ending_presentation ;;
  update (set_presentation_mode false) ;;
  (* if hasattr(self, 'presentation_frame'): self.presentation_frame.destroy() *)
  s <- get ;;
  match presentation_frame s with
  | Some _ => update (set_presentation_frame (Some FrameDestroyed))
  | None => ret tt
  end ;;
  (* self.main_frame.grid() *)
  update (set_main_frame_shown true) ;;
  update (set_status_bar Status_Presentation_ended).

(** [self.slide_canvas.delete("all")] *)
Definition canvas_delete_all : G unit :=
  s <- get ;;
  match presentation_frame s with
  | None => raise (AttributeError "slide_canvas")
  | Some FrameDestroyed => raise (TclError "invalid command name")
  | Some (FrameLive _) => update (set_presentation_frame (Some (FrameLive None)))
  end.

(** [self.slide_canvas.create_image(...)] with the image of slide [i] *)
Definition canvas_create_image (i : Z) : G unit :=
  s <- get ;;
  match presentation_frame s with
  | None => raise (AttributeError "slide_canvas")
  | Some FrameDestroyed => raise (TclError "invalid command name")
  | Some (FrameLive _) => update (set_presentation_frame (Some (FrameLive (Some i))))
  end.

Definition len {A} (l : list A) : Z := Z.of_nat (length l).

Definition show_current_slide (d : display) : G unit :=
  s <- get ;;
  (* if 0 <= self.current_slide < len(self.slide_images): *)
  if (0 <=? current_slide s)%Z then
    imgs <- match slide_images s with
            | Some imgs => ret imgs
            | None => raise (AttributeError "slide_images")
            end ;;
    if (current_slide s <? len imgs)%Z then
      logger_info (Showing_slide (current_slide s + 1) (len imgs)) ;;
      canvas_delete_all ;;
      catch
        ((if canvas_ready d then ret tt else logger_warning Canvas_not_ready) ;;
         if canvas_ready d || screen_ready d then
           match draw_error d with
           | Some e => raise e
           | None =>
               canvas_create_image (current_slide s) ;;
               logger_info Displayed_slide ;;
               update (set_status_bar
                         (Status_Slide_of (current_slide s + 1) (len imgs)))
           end
         else logger_error Canvas_has_invalid_dimensions)
        (fun e =>
           logger_error (Error_displaying_slide e) ;;
           update (set_status_bar Status_Error_displaying_slide))
    else ret tt
  else ret tt.

Definition show_next_slide (d : display) : G unit :=
  s <- get ;;
  if (current_slide s <? len (slides s) - 1)%Z then
    update (set_current_slide (current_slide s + 1)%Z) ;;
    show_current_slide d ;;
    s' <- get ;;
    logger_info (Moved_to_next_slide (current_slide s' + 1))
  else ret tt.

Definition show_previous_slide (d : display) : G unit :=
  s <- get ;;
  if (current_slide s >? 0)%Z then
    update (set_current_slide (current_slide s - 1)%Z) ;;
    show_current_slide d ;;
    s' <- get ;;
    logger_info (Moved_to_previous_slide (current_slide s' + 1))
  else ret tt.

(* ===================================================================== *)
(** ** load_presentation, start_presentation *)
(* ===================================================================== *)

(** The body of [for page_num in range(pdf_document.page_count)], from page
    [page_num] on. *)
Fixpoint load_pages (page_num : Z) (pages : list (exn + Image)) : G unit :=
  match pages with
  | [] => ret tt
  | inl e :: _ => raise e
  | inr img :: rest =>
      s <- get ;;
      update (set_slide_images
                (Some (match slide_images s with
                       | Some imgs => imgs ++ [img]
                       | None => [img]
                       end))) ;;
      s <- get ;;
      update (set_slides (slides s ++ [page_num])) ;;
      load_pages (page_num + 1) rest
  end.

Definition load_presentation (presentation_name : string) (w : gui_env) : G unit :=
  logger_info (Loading_presentation presentation_name) ;;
  update (set_slides []) ;;
  catch
    (logger_info Converting_presentation_to_PDF ;;
     match libreoffice (conv w) with
     | Some e => raise e
     | None => ret tt
     end ;;
     (if pdf_exists (conv w) then ret tt
      else raise (FileNotFoundError "PDF conversion failed")) ;;
     logger_info Converting_PDF_to_images ;;
     pages <- match fitz_open (conv w) with
              | inl e => raise e
              | inr pages => ret pages
              end ;;
     update (set_slide_images (Some [])) ;;
     load_pages 0 pages ;;
     s <- get ;;
     logger_info (Converted_slides (len (slides s))) ;;
     (* if self.slides: *)
     match slides s with
     | [] => ret tt
     | _ :: _ =>
         update (set_current_slide 0%Z) ;;
         show_current_slide (disp w)
     end)
    (fun e =>
       logger_error (Error_loading_presentation e) ;;
       update (set_status_bar (Status_Error_loading_presentation e)) ;;
       (* Clean up on error *)
       end_presentation).

Definition start_presentation (w : gui_env) : G unit :=
  s <- get ;;
  match curselection (presentation_list s) with
  | Some current =>
      let selected := listbox_get (presentation_list s) current in
      logger_info (Starting_presentation selected) ;;
      update (set_status_bar (Status_Starting selected)) ;;
      update (set_presentation_mode true) ;;
      (* self.main_frame.grid_remove() *)
      update (set_main_frame_shown false) ;;
      (* self.presentation_frame = ttk.Frame(...); self.slide_canvas = tk.Canvas(...) *)
      update (set_presentation_frame (Some (FrameLive None))) ;;
      load_presentation selected w
  | None => ret tt
  end.

(* ===================================================================== *)
(** ** handle_command *)
(* ===================================================================== *)

Definition Qlt_bool (x y : Q) : bool := negb (Qle_bool y x).

(** [hasattr(self, 'last_command_time') and
     current_time - self.last_command_time < 1.0] *)
Definition debounced (s : PresentationSystem) (current_time : Q) : bool :=
  match last_command_time s with
  | Some t => Qlt_bool (current_time - t) 1
  | None => false
  end.

(** Lines 334-367 of [handle_command]: the routing of a command that passed
    the debounce. *)
Definition dispatch (command : string) (w : gui_env) : G unit :=
  s <- get ;;
  if negb (presentation_mode s) then
    (* Navigation mode *)
    if command =? "UP" then
      logger_info Moving_selection_up ;;
      match curselection (presentation_list s) with
      | Some current =>
          if (0 <? current)%nat then
            update (set_presentation_list
                      (selection_set (current - 1)
                         (selection_clear_all (presentation_list s)))) ;;
            logger_info (Selected_item
                           (listbox_get (presentation_list s) (current - 1)))
          else ret tt
      | None => ret tt
      end
    else if command =? "DOWN" then
      logger_info Moving_selection_down ;;
      match curselection (presentation_list s) with
      | Some current =>
          if (Z.of_nat current <? listbox_size (presentation_list s) - 1)%Z then
            update (set_presentation_list
                      (selection_set (current + 1)
                         (selection_clear_all (presentation_list s)))) ;;
            logger_info (Selected_item
                           (listbox_get (presentation_list s) (current + 1)))
          else ret tt
      | None => ret tt
      end
    else if command =? "SELECT" then
      logger_info SELECT_starting_presentation ;;
      start_presentation w
    else ret tt
  else
    (* Presentation mode *)
    if command =? "UP" then
      logger_info Showing_previous_slide ;;
      show_previous_slide (disp w)
    else if command =? "DOWN" then
      logger_info Showing_next_slide ;;
      show_next_slide (disp w)
    else if command =? "SELECT" then
      logger_info SELECT_ending_presentation ;;
      end_presentation
    else ret tt.

Definition handle_command (command : string) (current_time : Q) (w : gui_env) : G unit :=
  logger_info (Received_command command) ;;
  s <- get ;;
  if debounced s current_time then
    logger_info (Ignoring_command_due_to_debounce command)
  else
    update (set_last_command_time (Some current_time)) ;;
    dispatch command w.

(** [__init__] up to the start of the main loop, with [scan_presentations]
    having found the (sorted) names [presentations]. *)
Definition init_system (presentations : list string) : PresentationSystem :=
  {| presentation_list :=
       {| items := presentations;
          curselection := match presentations with [] => None | _ :: _ => Some 0%nat end |};
     presentation_mode := false;
     current_slide := 0%Z;
     slides := [];
     slide_images := None;
     last_command_time := None;
     status_bar := match presentations with
                   | [] => Status_No_presentations_found
                   | _ :: _ => Status_Found (length presentations)
                   end;
     main_frame_shown := true;
     presentation_frame := None |}.

(** The Tk main loop running the callbacks of a list of commands, each with
    the clock reading and the outside world it meets. An exception raised by
    a callback is reported by Tk and the loop goes on with [self] as the
    callback left it. *)
Record arrival : Type := {
  arr_command : string;
  arr_time : Q;
  arr_env : gui_env
}.

Fixpoint run_commands (cmds : list arrival) (s : PresentationSystem)
  : PresentationSystem * list event :=
  match cmds with
  | [] => (s, [])
  | a :: rest =>
      match handle_command (arr_command a) (arr_time a) (arr_env a) s with
      | (_, s1, t1) =>
          match run_commands rest s1 with
          | (s2, t2) => (s2, t1 ++ t2)
          end
      end
  end.

(* ===================================================================== *)
(** ** Reasoning about runs *)
(* ===================================================================== *)

(** [wp m Q s]: the run of [m] from [s] ends with an outcome, a state and a
    trace that satisfy [Q]. *)
Definition wp {St A} (m : M St A) (Q : outcome A -> St -> list event -> Prop) (s : St) : Prop :=
  match m s with (r, s', t) => Q r s' t end.

(** How a postcondition looks through a sequencing. *)
Definition after_bind {St A B} (k : A -> M St B)
  (Q : outcome B -> St -> list event -> Prop) : outcome A -> St -> list event -> Prop :=
  fun r s t =>
    match r with
    | Val a => wp (k a) (fun r' s' t' => Q r' s' (t ++ t')) s
    | Exc e => Q (Exc e) s t
    | Blocked => Q Blocked s t
    | OutOfFuel => Q OutOfFuel s t
    end.

(** How a postcondition looks through a [try ... except]. *)
Definition after_catch {St A} (h : exn -> M St A)
  (Q : outcome A -> St -> list event -> Prop) : outcome A -> St -> list event -> Prop :=
  fun r s t =>
    match r with
    | Exc e => wp (h e) (fun r' s' t' => Q r' s' (t ++ t')) s
    | _ => Q r s t
    end.

(* ===================================================================== *)
(** ** Notification payloads *)
(* ===================================================================== *)

(** [data.decode()] is the strict UTF-8 decoder of Python. A [str] is
    represented by its UTF-8 bytes, so decoding is the identity on the
    well-formed byte sequences and raises on the others. *)
Definition in_range (lo hi b : N) : bool := ((lo <=? b) && (b <=? hi))%N.
Definition is_cont (b : N) : bool := in_range 128 191 b.

Fixpoint utf8_valid (bs : list N) : bool :=
  match bs with
  | [] => true
  | b0 :: r0 =>
      if (b0 <=? 127)%N then utf8_valid r0
      else if in_range 194 223 b0 then
        match r0 with
        | b1 :: r1 => is_cont b1 && utf8_valid r1
        | _ => false
        end
      else if in_range 224 239 b0 then
        match r0 with
        | b1 :: b2 :: r2 =>
            (if (b0 =? 224)%N then in_range 160 191 b1
             else if (b0 =? 237)%N then in_range 128 159 b1
             else is_cont b1)
            && is_cont b2 && utf8_valid r2
        | _ => false
        end
      else if in_range 240 244 b0 then
        match r0 with
        | b1 :: b2 :: b3 :: r3 =>
            (if (b0 =? 240)%N then in_range 144 191 b1
             else if (b0 =? 244)%N then in_range 128 143 b1
             else is_cont b1)
            && is_cont b2 && is_cont b3 && utf8_valid r3
        | _ => false
        end
      else false
  end.

Definition decode (data : list Byte.byte) : option string :=
  if utf8_valid (map Byte.to_N data) then Some (string_of_list_byte data) else None.

(** The tokens the dispatcher routes. *)
Definition is_token (command : string) : bool :=
  (command =? "UP") || (command =? "DOWN") || (command =? "SELECT").

(* ===================================================================== *)
(** ** The BLE link: state, outside world *)
(* ===================================================================== *)

Record descriptor : Type := {
  desc_uuid : string;
  desc_handle : Z
}.

(** What the BLE stack answers to one call of the supervision thread. The
    answers are scripted in the order of the calls. *)
Inductive answer : Type :=
| Raises (e : exn)
| Returns_peripheral (p : Z)                     (* btle.Peripheral(...) *)
| Returns_none                                   (* getServiceByUUID, writeCharacteristic, disconnect *)
| Returns_characteristics (handles : list Z)     (* service.getCharacteristics(uuid) *)
| Returns_descriptors (ds : list descriptor)     (* characteristic.getDescriptors() *)
| Timed_out                                      (* waitForNotifications: nothing within the timeout *)
| Notification (data : list Byte.byte).          (* waitForNotifications: a notification came in *)

Record Link : Type := {
  connected : bool;
  peripheral : option Z;
  script : list answer
}.

Definition set_connected (v : bool) (l : Link) : Link :=
  {| connected := v; peripheral := peripheral l; script := script l |}.
Definition set_peripheral (v : option Z) (l : Link) : Link :=
  {| connected := connected l; peripheral := v; script := script l |}.
Definition set_script (v : list answer) (l : Link) : Link :=
  {| connected := connected l; peripheral := peripheral l; script := v |}.

Abbreviation L := (M Link).

(** An external call: it is recorded, and the next answer of the script is
    taken; an answer that is an exception is raised. *)
Definition call (ev : event) : L answer :=
  emit ev ;;
  s <- get ;;
  match script s with
  | [] => blocked
  | a :: rest =>
      update (set_script rest) ;;
      match a with
      | Raises e => raise e
      | _ => ret a
      end
  end.

Definition Peripheral (t : addr_type) : L Z :=
  a <- call (EvConnect t) ;;
  match a with Returns_peripheral p => ret p | _ => blocked end.

Definition returns_none (ev : event) : L unit :=
  a <- call ev ;;
  match a with Returns_none => ret tt | _ => blocked end.

Definition getServiceByUUID : L unit := returns_none EvGetService.

Definition getCharacteristics : L (list Z) :=
  a <- call EvGetCharacteristics ;;
  match a with Returns_characteristics hs => ret hs | _ => blocked end.

Definition getDescriptors : L (list descriptor) :=
  a <- call EvGetDescriptors ;;
  match a with Returns_descriptors ds => ret ds | _ => blocked end.

Definition writeCharacteristic (handle : Z) (withResponse : bool) : L unit :=
  returns_none (EvWrite handle withResponse).

Definition disconnect : L unit := returns_none EvDisconnect.

(** [NotifyDelegate.handleNotification] *)
Definition handleNotification (data : list Byte.byte) : L unit :=
  match decode data with
  | None => raise UnicodeDecodeError
  | Some command =>
      logger_info (Received_command command) ;;
      root_after (Call_handle_command command)
  end.

(** [peripheral.waitForNotifications(timeout)]: bluepy runs the delegate
    inside the call, then returns [True]. *)
Definition waitForNotifications (timeout : Q) : L bool :=
  a <- call (EvWait timeout) ;;
  match a with
  | Timed_out => ret false
  | Notification data => handleNotification data ;; ret true
  | _ => blocked
  end.

(* ===================================================================== *)
(** ** maintain_ble_connection *)
(* ===================================================================== *)

Definition max_retries : Z := 3.
Definition retry_delay : Q := 2.
Definition max_notify_retries : Z := 3.

Definition range (n : Z) : list Z := map Z.of_nat (seq 0 (Z.to_nat n)).

(** Lines 218-227: one connection attempt, the random address type first
    and the public one if that raises. *)
Definition connect_attempt (retry : Z) : L unit :=
  logger_info (Connecting_attempt (retry + 1) max_retries) ;;
  p <- catch (Peripheral ADDR_TYPE_RANDOM)
             (fun _ => Peripheral ADDR_TYPE_PUBLIC) ;;
  update (set_peripheral (Some p)) ;;
  update (set_connected true) ;;
  logger_info Connected.

(** Lines 217-233: the body of [for retry in range(max_retries)]; [true]
    stands for [break]. *)
Definition connect_iteration (retry : Z) : L bool :=
  catch (connect_attempt retry ;; ret true)
        (fun e =>
           logger_error (Connection_attempt_failed (retry + 1) e) ;;
           if (retry <? max_retries - 1)%Z
           then time_sleep retry_delay ;; ret false
           else raise e).

(** Lines 216-233: [for retry in range(max_retries)], over the remaining
    values of [retry]. *)
Fixpoint connect_loop (retries : list Z) : L unit :=
  match retries with
  | [] => ret tt
  | retry :: rest =>
      done <- connect_iteration retry ;;
      if done : bool then ret tt else connect_loop rest
  end.

(** Lines 261-267: search of the CCCD among the descriptors. *)
Fixpoint find_cccd (ds : list descriptor) : L (option Z) :=
  match ds with
  | [] => ret None
  | d :: rest =>
      logger_info (Found_descriptor (desc_uuid d)) ;;
      if desc_uuid d =? "2902" then
        logger_info (Found_CCCD_descriptor (desc_handle d)) ;;
        ret (Some (desc_handle d))
      else find_cccd rest
  end.

(** Lines 278-289: [for notify_retry in range(max_notify_retries)]. *)
Fixpoint enable_notifications (cccd_handle : Z) (retries : list Z) : L unit :=
  match retries with
  | [] => ret tt
  | notify_retry :: rest =>
      done <- catch (logger_info (Enabling_notifications cccd_handle) ;;
                     writeCharacteristic cccd_handle true ;;
                     logger_info Notifications_enabled ;;
                     ret true)
                    (fun e =>
                       logger_error (Failed_to_enable_notifications (notify_retry + 1) e) ;;
                       if (notify_retry <? max_notify_retries - 1)%Z
                       then time_sleep (1 # 2) ;; ret false
                       else raise e) ;;
      if done : bool then ret tt else enable_notifications cccd_handle rest
  end.

(** Lines 294-301: [while self.connected], at most [fuel] iterations. *)
Fixpoint wait_loop (fuel : nat) : L unit :=
  match fuel with
  | O => out_of_fuel
  | S fuel' =>
      s <- get ;;
      if connected s then
        catch (got <- waitForNotifications 1 ;;
               if got : bool then ret tt else time_sleep (1 # 10))
              (fun e => logger_error (Notification_error e) ;; raise e) ;;
        wait_loop fuel'
      else ret tt
  end.

(** Lines 257-291: discovery and enabling of the notifications. *)
Definition subscribe : L unit :=
  getServiceByUUID ;;
  cs <- getCharacteristics ;;
  characteristic <- match cs with
                    | [] => raise IndexError
                    | c :: _ => ret c
                    end ;;
  ds <- getDescriptors ;;
  found <- find_cccd ds ;;
  cccd_handle <- match found with
                 | Some h => ret h
                 | None => logger_info CCCD_not_found ;; ret (characteristic + 1)%Z
                 end ;;
  enable_notifications cccd_handle (range max_notify_retries) ;;
  logger_info Ready_to_receive_notifications.

(** Lines 235-305: [if self.connected: ...]. *)
Definition session (fuel : nat) : L unit :=
  s <- get ;;
  if connected s then
    root_after (Config_ble_status Status_Connected) ;;
    time_sleep (1 # 2) ;;
    emit EvSetDelegate ;;
    catch (subscribe ;; wait_loop fuel)
          (fun e => logger_error (Service_setup_error e) ;; raise e)
  else ret tt.

(** Lines 306-320: the handler of the outer [try]. *)
Definition cleanup (e : exn) : L unit :=
  logger_error (BLE_Error e) ;;
  update (set_connected false) ;;
  root_after (Config_ble_status Status_Disconnected) ;;
  s <- get ;;
  match peripheral s with
  | Some _ =>
      catch disconnect (fun _ => ret tt) ;;
      update (set_peripheral None)
  | None => ret tt
  end ;;
  time_sleep 2.

(** Lines 214-320: one iteration of [while True]. *)
Definition cycle (fuel : nat) : L unit :=
  catch (s <- get ;;
         if negb (connected s) then
           connect_loop (range max_retries) ;;
           session fuel
         else ret tt)
        cleanup.



(** The thread as [__init__] starts it. *)
Definition init_link (world : list answer) : Link :=
  {| connected := false; peripheral := None; script := world |}.

(* ===================================================================== *)
(** ** Observations on traces *)
(* ===================================================================== *)

Definition is_ignored (ev : event) : bool :=
  match ev with
  | EvLog INFO (Ignoring_command_due_to_debounce _) => true
  | _ => false
  end.

(** A run of [handle_command] was dropped by the debounce. *)
Definition rejected (t : list event) : bool := existsb is_ignored t.

Definition is_warning (ev : event) : bool :=
  match ev with EvLog WARNING _ => true | _ => false end.

Definition is_connected_log (ev : event) : bool :=
  match ev with EvLog INFO Connected => true | _ => false end.

Definition is_retry_failure (ev : event) : bool :=
  match ev with EvLog ERROR (Connection_attempt_failed _ _) => true | _ => false end.

Definition is_attempt_start (ev : event) : bool :=
  match ev with EvLog INFO (Connecting_attempt _ _) => true | _ => false end.

Definition is_connect_call (ev : event) : bool :=
  match ev with EvConnect _ => true | _ => false end.

Definition is_sleep (ev : event) : bool :=
  match ev with EvSleep _ => true | _ => false end.

Definition count (p : event -> bool) (t : list event) : nat := length (filter p t).


(* ===================================================================== *)
(** ** Predicates used in the proofs *)
(* ===================================================================== *)

(** What no routed action does: touch the debounce timestamp, or log a
    debounce drop. *)
Definition quiet {A} (s : PresentationSystem)
  : outcome A -> PresentationSystem -> list event -> Prop :=
  fun _ s' t => last_command_time s' = last_command_time s /\ rejected t = false.

(** What [dispatch] logs in navigation mode before it looks at the
    selection. *)
Definition navigation_log (command : string) : list event :=
  if command =? "UP" then [EvLog INFO Moving_selection_up]
  else if command =? "DOWN" then [EvLog INFO Moving_selection_down]
  else if command =? "SELECT" then [EvLog INFO SELECT_starting_presentation]
  else [].

(** [self] after [end_presentation]. *)
Definition ended (s : PresentationSystem) : PresentationSystem :=
  {| presentation_list := presentation_list s;
     presentation_mode := false;
     current_slide := current_slide s;
     slides := slides s;
     slide_images := slide_images s;
     last_command_time := last_command_time s;
     status_bar := Status_Presentation_ended;
     main_frame_shown := true;
     presentation_frame := match presentation_frame s with
                           | Some _ => Some FrameDestroyed
                           | None => None
                           end |}.

(** The images of the pages that come before the first page that fails. *)
Fixpoint loaded (pages : list (exn + Image)) : list Image :=
  match pages with
  | inr img :: rest => img :: loaded rest
  | _ => []
  end.

Fixpoint first_error (pages : list (exn + Image)) : option exn :=
  match pages with
  | [] => None
  | inl e :: _ => Some e
  | inr _ :: rest => first_error rest
  end.

(** The exception of the stage at which the conversion fails. *)
Definition conversion_error (c : converter) : option exn :=
  match libreoffice c with
  | Some e => Some e
  | None =>
      if pdf_exists c then
        match fitz_open c with
        | inl e => Some e
        | inr pages => first_error pages
        end
      else Some (FileNotFoundError "PDF conversion failed")
  end.

(** What [self.slide_images] holds after a conversion, [before] being what
    it held: it is reset only once [fitz.open] has returned. *)
Definition images_after (c : converter) (before : option (list Image)) : option (list Image) :=
  match libreoffice c with
  | Some _ => before
  | None =>
      if pdf_exists c then
        match fitz_open c with
        | inl _ => before
        | inr pages => Some (loaded pages)
        end
      else before
  end.

(** What [self.slides] holds after a conversion. *)
Definition slides_after (c : converter) : list Z :=
  match libreoffice c with
  | Some _ => []
  | None =>
      if pdf_exists c then
        match fitz_open c with
        | inl _ => []
        | inr pages => range (len (loaded pages))
        end
      else []
  end.

(** The state of a session that the commands maintain: the cursor is not
    negative; while presenting, it is below the number of slides when there
    are slides, the images are in memory, one per slide, and the frame with
    its canvas is alive. *)
Record session_ok (s : PresentationSystem) : Prop := {
  cursor_nonneg : (0 <= current_slide s)%Z;
  cursor_below :
    presentation_mode s = true -> slides s <> [] ->
    (current_slide s < len (slides s))%Z;
  images_loaded :
    presentation_mode s = true ->
    exists imgs, slide_images s = Some imgs /\ length imgs = length (slides s);
  frame_alive :
    presentation_mode s = true ->
    exists c, presentation_frame s = Some (FrameLive c)
}.

(** [s'] differs from [s] at most in the status text and in what the canvas
    shows. *)
Definition only_display_changed (s s' : PresentationSystem) : Prop :=
  presentation_list s' = presentation_list s /\
  presentation_mode s' = presentation_mode s /\
  current_slide s' = current_slide s /\
  slides s' = slides s /\
  slide_images s' = slide_images s /\
  last_command_time s' = last_command_time s /\
  main_frame_shown s' = main_frame_shown s /\
  (forall c, presentation_frame s = Some (FrameLive c) ->
             exists c', presentation_frame s' = Some (FrameLive c')).

(** The events of the connection phase of a cycle. *)
Definition connect_event (ev : event) : bool :=
  is_attempt_start ev || is_connect_call ev || is_connected_log ev || is_retry_failure ev.

(** The starts of attempts and the sleeps of a trace, in order. *)
Definition attempts_and_sleeps (t : list event) : list event :=
  filter (fun ev => is_attempt_start ev || is_sleep ev) t.

(** The most a connection phase shows of attempts and sleeps. *)
Definition three_attempts : list event :=
  [EvLog INFO (Connecting_attempt 1 3); EvSleep 2;
   EvLog INFO (Connecting_attempt 2 3); EvSleep 2;
   EvLog INFO (Connecting_attempt 3 3)].

(** What the methods of a connected session keep: the link stays marked
    as it was, answers are only taken from the front of the script, and
    nothing of the connection phase is logged or called. *)
Definition link_frame (s s' : Link) (t : list event) : Prop :=
  connected s' = connected s /\
  peripheral s' = peripheral s /\
  (length (script s') <= length (script s))%nat /\
  existsb connect_event t = false.

(** What one iteration of the connection loop does, [retry] being its
    index. *)
Definition iteration_post (retry : Z) (s : Link) : outcome bool -> Link -> list event -> Prop :=
  fun r s' t =>
    attempts_and_sleeps t =
      EvLog INFO (Connecting_attempt (retry + 1) max_retries)
      :: match r with Val false => [EvSleep retry_delay] | _ => [] end /\
    (count is_connect_call t <= 2)%nat /\
    count is_connected_log t = match r with Val true => 1%nat | _ => 0%nat end /\
    count is_retry_failure t =
      match r with Val false | Exc _ => 1%nat | _ => 0%nat end /\
    match r with
    | Val true =>
        connected s' = true /\ (exists p, peripheral s' = Some p) /\
        (length (script s') < length (script s))%nat
    | Val false =>
        (retry <? max_retries - 1)%Z = true /\
        connected s' = connected s /\ peripheral s' = peripheral s /\
        (length (script s') < length (script s))%nat
    | Exc _ =>
        (retry <? max_retries - 1)%Z = false /\
        connected s' = connected s /\ peripheral s' = peripheral s /\
        (length (script s') < length (script s))%nat
    | Blocked =>
        connected s' = connected s /\ peripheral s' = peripheral s /\
        (length (script s') <= length (script s))%nat
    | OutOfFuel => False
    end.

(** What the connection loop of a cycle does. *)
Definition loop_post (s : Link) : outcome unit -> Link -> list event -> Prop :=
  fun r s' t =>
    (exists k, attempts_and_sleeps t = firstn k three_attempts) /\
    (count is_attempt_start t <= 3)%nat /\
    (count is_connect_call t <= 6)%nat /\
    count is_connected_log t = match r with Val _ => 1%nat | _ => 0%nat end /\
    match r with
    | Val _ =>
        connected s' = true /\ (exists p, peripheral s' = Some p) /\
        (length (script s') < length (script s))%nat
    | Exc _ =>
        connected s' = connected s /\ peripheral s' = peripheral s /\
        (length (script s') < length (script s))%nat /\
        count is_retry_failure t = 3%nat
    | Blocked =>
        connected s' = connected s /\ peripheral s' = peripheral s /\
        (length (script s') <= length (script s))%nat
    | OutOfFuel => False
    end.

(** What [cleanup] emits when it completes, [had] telling whether
    [self.peripheral] was set. *)
Definition cleanup_trace (e : exn) (had : bool) : list event :=
  [EvLog ERROR (BLE_Error e); EvAfter (Config_ble_status Status_Disconnected)]
  ++ (if had then [EvDisconnect] else [])
  ++ [EvSleep 2].

Definition is_some {A} (o : option A) : bool :=
  match o with Some _ => true | None => false end.

(** What the handler of the outer [try] does from [s]. *)
Definition cleanup_post (e : exn) (s : Link) : outcome unit -> Link -> list event -> Prop :=
  fun r s' t =>
    connected s' = false /\
    (length (script s') <= length (script s))%nat /\
    existsb connect_event t = false /\
    match r with
    | Val _ => peripheral s' = None /\ t = cleanup_trace e (is_some (peripheral s))
    | Blocked => peripheral s <> None
    | _ => False
    end.

(** What one iteration of [while True] does from a disconnected [s]. *)
Definition cycle_post (fuel : nat) (s : Link) : outcome unit -> Link -> list event -> Prop :=
  fun r s' t =>
    (count is_attempt_start t <= 3)%nat /\
    (count is_connect_call t <= 6)%nat /\
    (count is_connected_log t <= 1)%nat /\
    match r with
    | Val _ =>
        connected s' = false /\ peripheral s' = None /\
        (length (script s') < length (script s))%nat /\
        exists e had t0, t = t0 ++ cleanup_trace e had
    | Exc _ => False
    | Blocked => (length (script s') <= length (script s))%nat
    | OutOfFuel => (fuel <= length (script s))%nat
    end.


(** The trace of [m] from [s] begins with [pre]. *)
Definition starts_with {St A} (pre : list event) (m : M St A) (s : St) : Prop :=
  exists t, trace_of (m s) = pre ++ t.



(* ===================================================================== *)
(** * Proofs *)
(* ===================================================================== *)

Section WpRules.
Context {St : Type}.
Implicit Types s : St.

Lemma wp_run {A} (m : M St A) Q s :
  wp m Q s <-> Q (result_of (m s)) (state_of (m s)) (trace_of (m s)).
Proof. unfold wp, result_of, state_of, trace_of. destruct (m s) as [[r s'] t]. reflexivity. Qed.

Lemma wp_mono {A} (m : M St A) (Q Q' : outcome A -> St -> list event -> Prop) s :
  wp m Q s -> (forall r s' t, Q r s' t -> Q' r s' t) -> wp m Q' s.
Proof. unfold wp. destruct (m s) as [[r s'] t]. auto. Qed.

Lemma wp_conj {A} (m : M St A) (Q Q' : outcome A -> St -> list event -> Prop) s :
  wp m Q s -> wp m Q' s -> wp m (fun r s' t => Q r s' t /\ Q' r s' t) s.
Proof. unfold wp. destruct (m s) as [[r s'] t]. auto. Qed.

Lemma wp_ret {A} (a : A) Q s : Q (Val a) s [] -> wp (ret a : M St A) Q s.
Proof. exact (fun H => H). Qed.

Lemma wp_raise {A} (e : exn) (Q : outcome A -> St -> list event -> Prop) s :
  Q (Exc e) s [] -> wp (raise e : M St A) Q s.
Proof. exact (fun H => H). Qed.

Lemma wp_get Q s : Q (Val s) s [] -> wp (get : M St St) Q s.
Proof. exact (fun H => H). Qed.

Lemma wp_update (f : St -> St) Q s : Q (Val tt) (f s) [] -> wp (update f) Q s.
Proof. exact (fun H => H). Qed.

Lemma wp_emit (ev : event) Q s : Q (Val tt) s [ev] -> wp (emit ev : M St unit) Q s.
Proof. exact (fun H => H). Qed.

Lemma wp_blocked {A} (Q : outcome A -> St -> list event -> Prop) s :
  Q Blocked s [] -> wp (blocked : M St A) Q s.
Proof. exact (fun H => H). Qed.

Lemma wp_out_of_fuel {A} (Q : outcome A -> St -> list event -> Prop) s :
  Q OutOfFuel s [] -> wp (out_of_fuel : M St A) Q s.
Proof. exact (fun H => H). Qed.

Lemma wp_bind {A B} (m : M St A) (k : A -> M St B) Q s :
  wp m (after_bind k Q) s -> wp (bind m k) Q s.
Proof.
  unfold wp, after_bind. cbn. unfold m_bind.
  destruct (m s) as [[[a | e | | ] s1] t1]; auto.
  unfold wp. destruct (k a s1) as [[r s2] t2]. auto.
Qed.

Lemma wp_catch {A} (m : M St A) (h : exn -> M St A) Q s :
  wp m (after_catch h Q) s -> wp (catch m h) Q s.
Proof.
  unfold wp, after_catch. cbn. unfold m_catch.
  destruct (m s) as [[[a | e | | ] s1] t1]; auto.
  unfold wp. destruct (h e s1) as [[r s2] t2]. auto.
Qed.
End WpRules.

(** One step of symbolic execution of a method. *)
Ltac wp_step :=
  lazymatch goal with
  | |- wp (bind _ _) _ _ => apply wp_bind
  | |- wp (catch _ _) _ _ => apply wp_catch
  | |- wp (ret _) _ _ => apply wp_ret
  | |- wp (raise _) _ _ => apply wp_raise
  | |- wp get _ _ => apply wp_get
  | |- wp (update _) _ _ => apply wp_update
  | |- wp (emit _) _ _ => apply wp_emit
  | |- wp (logger_info _) _ _ => apply wp_emit
  | |- wp (logger_warning _) _ _ => apply wp_emit
  | |- wp (logger_error _) _ _ => apply wp_emit
  | |- wp (time_sleep _) _ _ => apply wp_emit
  | |- wp (root_after _) _ _ => apply wp_emit
  | |- wp blocked _ _ => apply wp_blocked
  | |- wp out_of_fuel _ _ => apply wp_out_of_fuel
  end; cbv beta iota delta [after_bind after_catch].

Ltac wp_steps := repeat wp_step.

(** Projections of the application state through its setters. *)
Ltac simpl_state :=
  cbn [presentation_list presentation_mode current_slide slides slide_images
       last_command_time status_bar main_frame_shown presentation_frame
       set_presentation_list set_presentation_mode set_current_slide set_slides
       set_slide_images set_last_command_time set_status_bar
       set_main_frame_shown set_presentation_frame
       items curselection selection_set selection_clear_all
       connected peripheral script set_connected set_peripheral set_script] in *.

(** Symbolic execution, splitting on the tests the method makes. *)
Ltac wp_case :=
  lazymatch goal with
  | |- wp (if ?c then _ else _) _ _ => destruct c eqn:?
  | |- wp (match ?x with _ => _ end) _ _ => destruct x eqn:?
  end.

Ltac wp_go := repeat (simpl_state; first [wp_step | wp_case]).

(* ===================================================================== *)
(** ** The debounce *)
(* ===================================================================== *)

Lemma Qlt_bool_iff (x y : Q) : Qlt_bool x y = true <-> (x < y)%Q.
Proof.
  unfold Qlt_bool. rewrite negb_true_iff. split.
  - intros H. apply Qnot_le_lt. intros Hle.
    apply Qle_bool_iff in Hle. congruence.
  - intros H. destruct (Qle_bool y x) eqn:E; [| reflexivity].
    apply Qle_bool_iff in E. exfalso. exact (Qlt_not_le _ _ H E).
Qed.

Lemma debounced_true_iff (s : PresentationSystem) (now : Q) :
  debounced s now = true <->
  exists t0, last_command_time s = Some t0 /\ (now - t0 < 1)%Q.
Proof.
  unfold debounced. destruct (last_command_time s) as [t0 |].
  - rewrite Qlt_bool_iff. split.
    + intros H. exists t0. auto.
    + intros [t1 [E H]]. injection E as ->. exact H.
  - split; [discriminate | intros [t1 [E _]]; discriminate].
Qed.

Lemma debounced_false_iff (s : PresentationSystem) (now : Q) :
  debounced s now = false <->
  forall t0, last_command_time s = Some t0 -> (1 <= now - t0)%Q.
Proof.
  rewrite <- not_true_iff_false, debounced_true_iff. split.
  - intros H t0 E. apply Qnot_lt_le. intros Hlt. apply H. eauto.
  - intros H [t0 [E Hlt]]. exact (Qlt_not_le _ _ Hlt (H t0 E)).
Qed.

Lemma handle_command_rejected (command : string) (now : Q) (w : gui_env) (s : PresentationSystem) :
  debounced s now = true ->
  handle_command command now w s =
  (Val tt, s, [EvLog INFO (Received_command command);
               EvLog INFO (Ignoring_command_due_to_debounce command)]).
Proof.
  intros H.
  cbv [handle_command bind get Monad_M MonadState_M m_bind m_get logger_info emit update].
  rewrite H. reflexivity.
Qed.

Lemma handle_command_accepted (command : string) (now : Q) (w : gui_env) (s : PresentationSystem) :
  debounced s now = false ->
  handle_command command now w s =
  match dispatch command w (set_last_command_time (Some now) s) with
  | (r, s', t) => (r, s', EvLog INFO (Received_command command) :: t)
  end.
Proof.
  intros H.
  cbv [handle_command bind get Monad_M MonadState_M m_bind m_get logger_info emit update].
  rewrite H.
  destruct (dispatch command w (set_last_command_time (Some now) s)) as [[[a | e | | ] s'] t];
    reflexivity.
Qed.
Lemma rejected_app t1 t2 : rejected (t1 ++ t2) = rejected t1 || rejected t2.
Proof. apply existsb_app. Qed.

Ltac wp_call H :=
  eapply wp_mono; [apply H | cbv beta; intros [? | ? | | ] ? ? ?; cbv beta iota].

Ltac quiet_done :=
  unfold quiet in *; simpl_state;
  repeat match goal with H : _ /\ _ |- _ => destruct H end;
  split;
  [ congruence
  | rewrite ?rejected_app; cbn [rejected existsb is_ignored app orb];
    repeat match goal with H : rejected _ = false |- _ => rewrite H end;
    reflexivity ].

Lemma show_current_slide_quiet d s : wp (show_current_slide d) (quiet s) s.
Proof.
  unfold show_current_slide, canvas_delete_all, canvas_create_image.
  wp_go; quiet_done.
Qed.

Lemma show_next_slide_quiet d s : wp (show_next_slide d) (quiet s) s.
Proof.
  unfold show_next_slide. wp_go; try quiet_done.
  wp_call show_current_slide_quiet; wp_go; quiet_done.
Qed.

Lemma show_previous_slide_quiet d s : wp (show_previous_slide d) (quiet s) s.
Proof.
  unfold show_previous_slide. wp_go; try quiet_done.
  wp_call show_current_slide_quiet; wp_go; quiet_done.
Qed.

Lemma end_presentation_quiet s : wp end_presentation (quiet s) s.
Proof. unfold end_presentation. wp_go; quiet_done. Qed.

Lemma load_pages_quiet pages : forall n s, wp (load_pages n pages) (quiet s) s.
Proof.
  induction pages as [| [e | img] rest IH]; intros n s; cbn [load_pages].
  - wp_go; quiet_done.
  - wp_go; quiet_done.
  - wp_go; wp_call IH; quiet_done.
Qed.

Ltac wp_quiet :=
  repeat (simpl_state;
          first [ wp_step | wp_case
                | wp_call end_presentation_quiet
                | wp_call show_current_slide_quiet
                | wp_call show_next_slide_quiet
                | wp_call show_previous_slide_quiet
                | wp_call load_pages_quiet ]).

Lemma load_presentation_quiet name w s : wp (load_presentation name w) (quiet s) s.
Proof. unfold load_presentation. wp_quiet; quiet_done. Qed.

Lemma start_presentation_quiet w s : wp (start_presentation w) (quiet s) s.
Proof.
  unfold start_presentation. wp_quiet; try quiet_done.
  wp_call load_presentation_quiet; quiet_done.
Qed.

Lemma dispatch_quiet command w s : wp (dispatch command w) (quiet s) s.
Proof.
  unfold dispatch. wp_quiet; try quiet_done.
  wp_call start_presentation_quiet; quiet_done.
Qed.

(** The log tells whether the debounce dropped the command. *)
Lemma handle_command_rejected_debounced (command : string) (now : Q) (w : gui_env) (s : PresentationSystem) :
  rejected (trace_of (handle_command command now w s)) = debounced s now.
Proof.
  destruct (debounced s now) eqn:H.
  - rewrite handle_command_rejected by exact H. reflexivity.
  - rewrite handle_command_accepted by exact H.
    pose proof (dispatch_quiet command w (set_last_command_time (Some now) s)) as Hq.
    unfold wp in Hq.
    destruct (dispatch command w (set_last_command_time (Some now) s)) as [[r s'] t].
    destruct Hq as [_ Hq]. cbn. exact Hq.
Qed.

(** An accepted command stamps the clock reading, whatever it is routed to. *)
Lemma handle_command_accepted_time (command : string) (now : Q) (w : gui_env) (s : PresentationSystem) :
  debounced s now = false ->
  last_command_time (state_of (handle_command command now w s)) = Some now.
Proof.
  intros H. rewrite handle_command_accepted by exact H.
  pose proof (dispatch_quiet command w (set_last_command_time (Some now) s)) as Hq.
  unfold wp in Hq.
  destruct (dispatch command w (set_last_command_time (Some now) s)) as [[r s'] t].
  destruct Hq as [Hq _]. cbn. exact Hq.
Qed.

(** A dropped command leaves [self] as it was. *)
Lemma handle_command_rejected_state (command : string) (now : Q) (w : gui_env) (s : PresentationSystem) :
  debounced s now = true ->
  state_of (handle_command command now w s) = s.
Proof. intros H. rewrite handle_command_rejected by exact H. reflexivity. Qed.

(** C2. Three commands at [t], [t + 0.5] and [t + 1.5], whatever their
    tokens, the first one not being within 1.0 of an earlier accepted
    command: the first and the third are accepted and stamp their arrival
    time, the second is dropped and changes nothing. In general a command
    is dropped exactly when it arrives less than 1.0 after the last accepted
    one, and a dropped command leaves the timestamp as it was. *)
Theorem debounce_first_and_third_accepted :
  forall (s : PresentationSystem) (t : Q) (c1 c2 c3 : string) (w1 w2 w3 : gui_env),
    (forall t0, last_command_time s = Some t0 -> (1 <= t - t0)%Q) ->
    let r1 := handle_command c1 t w1 s in
    let r2 := handle_command c2 (t + (1 # 2))%Q w2 (state_of r1) in
    let r3 := handle_command c3 (t + (3 # 2))%Q w3 (state_of r2) in
    (rejected (trace_of r1) = false /\ last_command_time (state_of r1) = Some t) /\
    (rejected (trace_of r2) = true /\ state_of r2 = state_of r1) /\
    (rejected (trace_of r3) = false /\
     last_command_time (state_of r3) = Some (t + (3 # 2))%Q) /\
    (forall s' c now w,
        (rejected (trace_of (handle_command c now w s')) = true <->
         exists t0, last_command_time s' = Some t0 /\ (now - t0 < 1)%Q) /\
        (rejected (trace_of (handle_command c now w s')) = true ->
         last_command_time (state_of (handle_command c now w s')) = last_command_time s') /\
        (rejected (trace_of (handle_command c now w s')) = false ->
         last_command_time (state_of (handle_command c now w s')) = Some now)).
Proof.
  intros s t c1 c2 c3 w1 w2 w3 Hfirst r1 r2 r3.
  assert (D1 : debounced s t = false) by (apply debounced_false_iff; exact Hfirst).
  assert (T1 : last_command_time (state_of r1) = Some t)
    by (apply handle_command_accepted_time; exact D1).
  assert (D2 : debounced (state_of r1) (t + (1 # 2))%Q = true).
  { apply debounced_true_iff. exists t. split; [exact T1 | lra]. }
  assert (S2 : state_of r2 = state_of r1)
    by (apply handle_command_rejected_state; exact D2).
  assert (D3 : debounced (state_of r2) (t + (3 # 2))%Q = false).
  { apply debounced_false_iff. intros t0 E. rewrite S2, T1 in E.
    injection E as <-. lra. }
  repeat split.
  - unfold r1. rewrite handle_command_rejected_debounced. exact D1.
  - exact T1.
  - unfold r2. rewrite handle_command_rejected_debounced. exact D2.
  - exact S2.
  - unfold r3. rewrite handle_command_rejected_debounced. exact D3.
  - apply handle_command_accepted_time. exact D3.
  - rewrite handle_command_rejected_debounced. apply debounced_true_iff.
  - rewrite handle_command_rejected_debounced. apply debounced_true_iff.
  - rewrite handle_command_rejected_debounced. intros D.
    rewrite handle_command_rejected_state by exact D. reflexivity.
  - rewrite handle_command_rejected_debounced. apply handle_command_accepted_time.
Qed.

Lemma debounce_first_and_third_accepted_witness :
  let s := set_last_command_time (Some 3%Q) (init_system ["a.pptx"; "b.pptx"]) in
  let w := {| conv := {| libreoffice := None; pdf_exists := true;
                         fitz_open := inr [inr 1%nat; inr 2%nat] |};
              disp := {| canvas_ready := true; screen_ready := true;
                         draw_error := None |} |} in
  let r1 := handle_command "DOWN" 10%Q w s in
  let r2 := handle_command "SELECT" (10 + (1 # 2))%Q w (state_of r1) in
  let r3 := handle_command "UP" (10 + (3 # 2))%Q w (state_of r2) in
  (forall t0, last_command_time s = Some t0 -> (1 <= 10 - t0)%Q) /\
  rejected (trace_of r1) = false /\
  rejected (trace_of r2) = true /\
  rejected (trace_of r3) = false.
Proof.
  intros s w r1 r2 r3.
  assert (H : forall t0, last_command_time s = Some t0 -> (1 <= 10 - t0)%Q).
  { intros t0 E. injection E as <-. vm_compute. discriminate. }
  split; [exact H |].
  destruct (debounce_first_and_third_accepted s 10%Q "DOWN" "SELECT" "UP" w w w H)
    as [[A1 _] [[A2 _] [[A3 _] _]]].
  exact (conj A1 (conj A2 A3)).
Defined.

(* ===================================================================== *)
(** ** Commands that route to nothing *)
(* ===================================================================== *)

Lemma is_token_false (command : string) :
  is_token command = false ->
  (command =? "UP") = false /\ (command =? "DOWN") = false /\ (command =? "SELECT") = false.
Proof.
  unfold is_token. intros H.
  apply orb_false_iff in H. destruct H as [H H3].
  apply orb_false_iff in H. destruct H as [H1 H2]. auto.
Qed.

(** A command that is none of the three tokens is routed to nothing, in
    either mode. *)
Lemma dispatch_unknown (command : string) (w : gui_env) (s : PresentationSystem) :
  is_token command = false -> dispatch command w s = (Val tt, s, []).
Proof.
  intros H. apply is_token_false in H. destruct H as [H1 [H2 H3]].
  cbv [dispatch bind get Monad_M MonadState_M m_bind m_get].
  rewrite H1, H2, H3. destruct (negb (presentation_mode s)); reflexivity.
Qed.

Lemma handle_command_unknown (command : string) (now : Q) (w : gui_env) (s : PresentationSystem) :
  is_token command = false ->
  debounced s now = false ->
  handle_command command now w s =
  (Val tt, set_last_command_time (Some now) s, [EvLog INFO (Received_command command)]).
Proof.
  intros Hc Hd. rewrite handle_command_accepted by exact Hd.
  rewrite dispatch_unknown by exact Hc. reflexivity.
Qed.

(** C9. A command that passes the debounce check stamps its arrival time,
    whatever its token and whatever it is routed to. For a token that is
    none of UP, DOWN, SELECT that stamp is the only change, and every
    command that then arrives at a time [t'] with [t' - t < 1] is dropped. *)
Theorem accepted_command_always_stamps :
  forall (s : PresentationSystem) (command : string) (t : Q) (w : gui_env),
    debounced s t = false ->
    let s1 := state_of (handle_command command t w s) in
    last_command_time s1 = Some t /\
    (is_token command = false ->
     s1 = set_last_command_time (Some t) s /\
     forall (command' : string) (t' : Q) (w' : gui_env),
       (t' - t < 1)%Q ->
       rejected (trace_of (handle_command command' t' w' s1)) = true /\
       state_of (handle_command command' t' w' s1) = s1).
Proof.
  intros s command t w Hd s1.
  assert (T : last_command_time s1 = Some t)
    by (apply handle_command_accepted_time; exact Hd).
  split; [exact T |].
  intros Hc. split.
  - unfold s1. rewrite handle_command_unknown by assumption. reflexivity.
  - intros command' t' w' Hlt.
    assert (D : debounced s1 t' = true).
    { apply debounced_true_iff. exists t. auto. }
    split.
    + rewrite handle_command_rejected_debounced. exact D.
    + apply handle_command_rejected_state. exact D.
Qed.

Lemma accepted_command_always_stamps_witness :
  let s := init_system ["a.pptx"] in
  let w := {| conv := {| libreoffice := None; pdf_exists := true;
                         fitz_open := inr [inr 1%nat] |};
              disp := {| canvas_ready := true; screen_ready := true;
                         draw_error := None |} |} in
  debounced s 5%Q = false /\
  last_command_time (state_of (handle_command "LEFT" 5%Q w s)) = Some 5%Q.
Proof.
  intros s w. split; [reflexivity |].
  exact (proj1 (accepted_command_always_stamps s "LEFT" 5%Q w eq_refl)).
Defined.

Lemma start_presentation_no_selection (w : gui_env) (s : PresentationSystem) :
  curselection (presentation_list s) = None ->
  start_presentation w s = (Val tt, s, []).
Proof.
  intros Hsel.
  cbv [start_presentation bind get Monad_M MonadState_M m_bind m_get].
  rewrite Hsel. reflexivity.
Qed.

Lemma dispatch_no_selection (command : string) (w : gui_env) (s : PresentationSystem) :
  presentation_mode s = false ->
  curselection (presentation_list s) = None ->
  dispatch command w s = (Val tt, s, navigation_log command).
Proof.
  intros Hmode Hsel.
  pose proof (start_presentation_no_selection w s Hsel) as Hstart.
  cbv [dispatch navigation_log bind get Monad_M MonadState_M m_bind m_get].
  rewrite Hmode, Hsel. cbn [negb].
  destruct (command =? "UP"); [reflexivity |].
  destruct (command =? "DOWN"); [reflexivity |].
  destruct (command =? "SELECT"); [| reflexivity].
  cbv [logger_info emit]. rewrite Hstart. reflexivity.
Qed.

(** C10. In navigation mode with nothing selected in the list, UP, DOWN and
    SELECT are routed to nothing and raise nothing: [start_presentation]
    returns at once, and [handle_command] returns with the mode, the
    selection and everything else as before, the debounce timestamp of an
    accepted command apart; all it does is log. *)
Theorem no_selection_no_action :
  forall (s : PresentationSystem) (command : string) (now : Q) (w : gui_env),
    presentation_mode s = false ->
    curselection (presentation_list s) = None ->
    start_presentation w s = (Val tt, s, []) /\
    handle_command command now w s =
    (if debounced s now
     then (Val tt, s, [EvLog INFO (Received_command command);
                       EvLog INFO (Ignoring_command_due_to_debounce command)])
     else (Val tt, set_last_command_time (Some now) s,
           EvLog INFO (Received_command command) :: navigation_log command)) /\
    presentation_mode (state_of (handle_command command now w s)) = false /\
    curselection (presentation_list (state_of (handle_command command now w s))) = None.
Proof.
  intros s command now w Hmode Hsel.
  assert (E : handle_command command now w s =
              (if debounced s now
               then (Val tt, s, [EvLog INFO (Received_command command);
                                 EvLog INFO (Ignoring_command_due_to_debounce command)])
               else (Val tt, set_last_command_time (Some now) s,
                     EvLog INFO (Received_command command) :: navigation_log command))).
  { destruct (debounced s now) eqn:Hd.
    - apply handle_command_rejected. exact Hd.
    - rewrite handle_command_accepted by exact Hd.
      rewrite dispatch_no_selection by assumption. reflexivity. }
  split; [apply start_presentation_no_selection; exact Hsel |].
  split; [exact E |].
  rewrite E. destruct (debounced s now); split; assumption.
Qed.

Lemma no_selection_no_action_witness :
  let s := init_system [] in
  let w := {| conv := {| libreoffice := None; pdf_exists := true;
                         fitz_open := inr [inr 1%nat] |};
              disp := {| canvas_ready := true; screen_ready := true;
                         draw_error := None |} |} in
  presentation_mode s = false /\
  curselection (presentation_list s) = None /\
  start_presentation w s = (Val tt, s, []) /\
  presentation_mode (state_of (handle_command "SELECT" 4%Q w s)) = false.
Proof.
  intros s w.
  destruct (no_selection_no_action s "SELECT" 4%Q w eq_refl eq_refl) as [A [_ [B _]]].
  exact (conj eq_refl (conj eq_refl (conj A B))).
Defined.

(* ===================================================================== *)
(** ** end_presentation *)
(* ===================================================================== *)

Lemma end_presentation_run (s : PresentationSystem) :
  end_presentation s = (Val tt, ended s, [EvLog INFO Ending_presentation]).
Proof.
  cbv [end_presentation bind get ret Monad_M MonadState_M m_bind m_get m_ret
       logger_info emit update].
  destruct s as [pl pm cs sl si lt sb mf [f |]]; reflexivity.
Qed.

Lemma ended_idempotent (s : PresentationSystem) : ended (ended s) = ended s.
Proof. destruct s as [pl pm cs sl si lt sb mf [f |]]; reflexivity. Qed.

(** C8, as the code has it. Called in navigation mode, [end_presentation]
    raises nothing and leaves the mode, the list and its selection, the
    slide cursor, the slides, the images and the debounce timestamp as they
    were; but it logs, shows the main frame and sets the status text to
    "Presentation ended". A second call changes nothing more. *)
Theorem end_in_navigation_mode :
  forall s : PresentationSystem,
    presentation_mode s = false ->
    let s1 := state_of (end_presentation s) in
    result_of (end_presentation s) = Val tt /\
    trace_of (end_presentation s) = [EvLog INFO Ending_presentation] /\
    presentation_mode s1 = false /\
    presentation_list s1 = presentation_list s /\
    current_slide s1 = current_slide s /\
    slides s1 = slides s /\
    slide_images s1 = slide_images s /\
    last_command_time s1 = last_command_time s /\
    status_bar s1 = Status_Presentation_ended /\
    main_frame_shown s1 = true /\
    state_of (end_presentation s1) = s1.
Proof.
  intros s Hmode s1. unfold s1.
  rewrite !end_presentation_run. cbn [result_of state_of trace_of fst snd].
  rewrite ended_idempotent.
  repeat split.
Qed.

Lemma end_in_navigation_mode_witness :
  let s := init_system ["a.pptx"] in
  presentation_mode s = false /\
  status_bar (state_of (end_presentation s)) = Status_Presentation_ended.
Proof.
  intros s. split; [reflexivity |].
  destruct (end_in_navigation_mode s eq_refl) as [_ [_ [_ [_ [_ [_ [_ [_ [H _]]]]]]]]].
  exact H.
Defined.

(** C8 as stated fails: right after start-up, in navigation mode with one
    presentation found, [end_presentation] replaces the status text. *)
Lemma end_in_navigation_mode_changes_status :
  let s := init_system ["a.pptx"] in
  presentation_mode s = false /\
  status_bar s = Status_Found 1 /\
  status_bar (state_of (end_presentation s)) = Status_Presentation_ended /\
  state_of (end_presentation s) <> s.
Proof.
  intros s. repeat split. intros H. discriminate H.
Qed.

(* ===================================================================== *)
(** ** load_presentation and start_presentation *)
(* ===================================================================== *)

Lemma range_snoc (n : nat) :
  range (Z.of_nat (S n)) = range (Z.of_nat n) ++ [Z.of_nat n].
Proof.
  unfold range. rewrite !Nat2Z.id. rewrite seq_S, map_app. reflexivity.
Qed.

(** The page loop: the pages before the first failing one are stored. *)
Lemma load_pages_run (pages : list (exn + Image)) :
  forall (k : nat) (imgs : list Image) (s : PresentationSystem),
    slide_images s = Some imgs ->
    slides s = range (Z.of_nat k) ->
    load_pages (Z.of_nat k) pages s =
    (match first_error pages with Some e => Exc e | None => Val tt end,
     set_slides (range (Z.of_nat (k + length (loaded pages))))
       (set_slide_images (Some (imgs ++ loaded pages)) s),
     []).
Proof.
  induction pages as [| [e | img] rest IH]; intros k imgs s Himgs Hslides.
  - cbn. rewrite Nat.add_0_r, app_nil_r, <- Hslides, <- Himgs.
    destruct s; reflexivity.
  - cbn. rewrite Nat.add_0_r, app_nil_r, <- Hslides, <- Himgs.
    destruct s; reflexivity.
  - cbn [load_pages first_error loaded length].
    cbv [bind get Monad_M MonadState_M m_bind m_get update].
    rewrite Himgs. simpl_state.
    replace (Z.of_nat k + 1)%Z with (Z.of_nat (S k)) by lia.
    rewrite (IH (S k) (imgs ++ [img])).
    + rewrite <- app_assoc. cbn [app].
      replace (S k + length (loaded rest))%nat with (k + S (length (loaded rest)))%nat by lia.
      destruct (first_error rest); destruct s; reflexivity.
    + reflexivity.
    + simpl_state. rewrite Hslides. symmetry. apply range_snoc.
Qed.

Ltac run_monad :=
  cbv beta iota delta
    [bind catch get ret raise Monad_M MonadExc_M MonadState_M
     m_bind m_catch m_get m_ret m_raise
     logger_info logger_warning logger_error emit update].

(** A failed conversion: the handler logs the error, sets the status text
    to it and calls [end_presentation]. *)
Lemma load_presentation_fails (name : string) (w : gui_env) (e : exn) (s : PresentationSystem) :
  conversion_error (conv w) = Some e ->
  exists t,
    load_presentation name w s =
    (Val tt,
     ended (set_status_bar (Status_Error_loading_presentation e)
              (set_slides (slides_after (conv w))
                 (set_slide_images (images_after (conv w) (slide_images s)) s))),
     t ++ [EvLog ERROR (Error_loading_presentation e);
           EvLog INFO Ending_presentation]).
Proof.
  unfold conversion_error, slides_after, images_after. intros He.
  unfold load_presentation. run_monad.
  destruct (libreoffice (conv w)) as [e0 |] eqn:Hlo.
  - injection He as ->. rewrite end_presentation_run.
    exists [EvLog INFO (Loading_presentation name); EvLog INFO Converting_presentation_to_PDF].
    destruct s; reflexivity.
  - destruct (pdf_exists (conv w)) eqn:Hpdf.
    + destruct (fitz_open (conv w)) as [e0 | pages] eqn:Hfo.
      * injection He as ->. rewrite end_presentation_run.
        exists [EvLog INFO (Loading_presentation name);
                EvLog INFO Converting_presentation_to_PDF;
                EvLog INFO Converting_PDF_to_images].
        destruct s; reflexivity.
      * erewrite (load_pages_run pages 0 []); [| reflexivity | reflexivity].
        rewrite He. rewrite end_presentation_run.
        exists [EvLog INFO (Loading_presentation name);
                EvLog INFO Converting_presentation_to_PDF;
                EvLog INFO Converting_PDF_to_images].
        destruct s; reflexivity.
    + injection He as <-. rewrite end_presentation_run.
      exists [EvLog INFO (Loading_presentation name); EvLog INFO Converting_presentation_to_PDF].
      destruct s; reflexivity.
Qed.

Lemma first_error_of_failing_page (pages : list (exn + Image)) :
  existsb page_fails pages = true -> exists e, first_error pages = Some e.
Proof.
  induction pages as [| [e | img] rest IH]; cbn; intros H.
  - discriminate H.
  - eauto.
  - auto.
Qed.

Lemma conversion_fails_error (c : converter) :
  conversion_fails c = true <-> exists e, conversion_error c = Some e.
Proof.
  unfold conversion_fails, conversion_error.
  destruct (libreoffice c) as [e |]; [split; eauto |].
  destruct (pdf_exists c); [| split; eauto].
  destruct (fitz_open c) as [e | pages]; [split; eauto |].
  split; [apply first_error_of_failing_page |].
  intros [e He]. induction pages as [| [e' | img] rest IH]; cbn in *; auto; discriminate.
Qed.

Lemma start_presentation_selected (w : gui_env) (s : PresentationSystem) (current : nat) :
  curselection (presentation_list s) = Some current ->
  start_presentation w s =
  let selected := listbox_get (presentation_list s) current in
  match load_presentation selected w
          (set_presentation_frame (Some (FrameLive None))
             (set_main_frame_shown false
                (set_presentation_mode true
                   (set_status_bar (Status_Starting selected) s)))) with
  | (r, s', t) => (r, s', EvLog INFO (Starting_presentation selected) :: t)
  end.
Proof.
  intros Hsel. unfold start_presentation. run_monad. rewrite Hsel. cbv zeta.
  destruct (load_presentation _ w _) as [[[a | e | | ] s'] t]; reflexivity.
Qed.

(** C3, as the code has it. When the conversion fails, [start_presentation]
    returns with the mode back to navigation and the main frame shown, and
    the failure is in the error log. The images stay in memory: those of
    the pages converted before the failure or, when the failure comes
    before [fitz.open] has returned, those of the presentation shown
    before. *)
Theorem failed_conversion_returns_to_navigation :
  forall (s : PresentationSystem) (w : gui_env) (current : nat),
    curselection (presentation_list s) = Some current ->
    conversion_fails (conv w) = true ->
    let r := start_presentation w s in
    result_of r = Val tt /\
    presentation_mode (state_of r) = false /\
    main_frame_shown (state_of r) = true /\
    (exists e, conversion_error (conv w) = Some e /\
               In (EvLog ERROR (Error_loading_presentation e)) (trace_of r)) /\
    slide_images (state_of r) = images_after (conv w) (slide_images s) /\
    slides (state_of r) = slides_after (conv w).
Proof.
  intros s w current Hsel Hfail r. unfold r.
  apply conversion_fails_error in Hfail. destruct Hfail as [e He].
  rewrite (start_presentation_selected w s current Hsel). cbv zeta.
  destruct (load_presentation_fails (listbox_get (presentation_list s) current) w e
              (set_presentation_frame (Some (FrameLive None))
                 (set_main_frame_shown false
                    (set_presentation_mode true
                       (set_status_bar
                          (Status_Starting (listbox_get (presentation_list s) current)) s))))
              He) as [t ->].
  cbn [result_of state_of trace_of fst snd].
  repeat split.
  exists e. split; [exact He |].
  right. apply in_or_app. right. left. reflexivity.
Qed.

Lemma failed_conversion_returns_to_navigation_witness :
  let s := init_system ["a.pptx"] in
  let w := {| conv := {| libreoffice := Some (CalledProcessError "soffice");
                         pdf_exists := false; fitz_open := inr [] |};
              disp := {| canvas_ready := true; screen_ready := true;
                         draw_error := None |} |} in
  curselection (presentation_list s) = Some 0%nat /\
  conversion_fails (conv w) = true /\
  presentation_mode (state_of (start_presentation w s)) = false.
Proof.
  intros s w.
  destruct (failed_conversion_returns_to_navigation s w 0 eq_refl eq_refl) as [_ [H _]].
  exact (conj eq_refl (conj eq_refl H)).
Defined.

(** C3 as stated fails. The third page of the selected presentation does
    not render: the status text ends as "Presentation ended", not as the
    error, and the two images converted before stay in memory. *)
Lemma failed_conversion_status_and_images :
  let s := init_system ["a.pptx"] in
  let e := RuntimeError "cannot render page" in
  let w := {| conv := {| libreoffice := None; pdf_exists := true;
                         fitz_open := inr [inr 1%nat; inr 2%nat; inl e] |};
              disp := {| canvas_ready := true; screen_ready := true;
                         draw_error := None |} |} in
  let r := start_presentation w s in
  conversion_fails (conv w) = true /\
  presentation_mode (state_of r) = false /\
  status_bar (state_of r) = Status_Presentation_ended /\
  status_bar (state_of r) <> Status_Error_loading_presentation e /\
  slide_images (state_of r) = Some [1%nat; 2%nat].
Proof.
  cbv zeta. repeat split. intros H. discriminate H.
Qed.

(* ===================================================================== *)
(** ** The slide cursor *)
(* ===================================================================== *)

Lemma only_display_changed_refl (s : PresentationSystem) : only_display_changed s s.
Proof. unfold only_display_changed. repeat split. eauto. Qed.

Ltac display_done :=
  first [ solve [exfalso; congruence] | split; [reflexivity |] ];
  unfold only_display_changed; simpl_state; repeat split; eauto.

(** With the images in memory and the canvas alive, [show_current_slide]
    raises nothing; it changes the display only. *)
Lemma show_current_slide_ok (d : display) (s : PresentationSystem) :
  (exists imgs, slide_images s = Some imgs) ->
  (exists c, presentation_frame s = Some (FrameLive c)) ->
  wp (show_current_slide d)
     (fun r s' _ => r = Val tt /\ only_display_changed s s') s.
Proof.
  intros [imgs Hi] [c Hf].
  unfold show_current_slide, canvas_delete_all, canvas_create_image.
  wp_go; display_done.
Qed.

Lemma length_range (n : nat) : length (range (Z.of_nat n)) = n.
Proof. unfold range. rewrite length_map, length_seq. apply Nat2Z.id. Qed.

Ltac use_display :=
  match goal with
  | H : _ /\ only_display_changed _ _ |- _ =>
      let E := fresh "E" in
      destruct H as [E H]; try discriminate E;
      unfold only_display_changed in H; simpl_state;
      destruct H as (? & ? & ? & ? & ? & ? & ? & ?)
  end.

(** While presenting, a step forward keeps the session in order. *)
Lemma show_next_slide_ok (d : display) (s : PresentationSystem) :
  session_ok s -> presentation_mode s = true ->
  wp (show_next_slide d) (fun r s' _ => r = Val tt /\ session_ok s') s.
Proof.
  intros [Hn Hb Hi Hf] Hm.
  destruct (Hi Hm) as [imgs [Himgs Hlen]]. destruct (Hf Hm) as [c Hc].
  unfold show_next_slide. wp_go.
  - eapply wp_mono; [apply show_current_slide_ok; simpl_state; eauto |].
    cbv beta. intros r s' t H. use_display. subst r. wp_go.
    apply Z.ltb_lt in Heqb.
    split; [reflexivity |]. constructor.
    + lia.
    + intros _ _. rewrite H1, H2. lia.
    + intros _. rewrite H3, H2. eauto.
    + intros _. eauto.
  - split; [reflexivity |]. constructor; assumption.
Qed.

(** While presenting, a step back keeps the session in order. *)
Lemma show_previous_slide_ok (d : display) (s : PresentationSystem) :
  session_ok s -> presentation_mode s = true ->
  wp (show_previous_slide d) (fun r s' _ => r = Val tt /\ session_ok s') s.
Proof.
  intros [Hn Hb Hi Hf] Hm.
  destruct (Hi Hm) as [imgs [Himgs Hlen]]. destruct (Hf Hm) as [c Hc].
  unfold show_previous_slide. wp_go.
  - eapply wp_mono; [apply show_current_slide_ok; simpl_state; eauto |].
    cbv beta. intros r s' t H. use_display. subst r. wp_go.
    apply Z.gtb_lt in Heqb.
    split; [reflexivity |]. constructor.
    + lia.
    + intros Hm' Hne. rewrite H1, H2. rewrite H2 in Hne.
      assert (0 < len (slides s))%Z.
      { unfold len. destruct (slides s); [congruence | cbn; lia]. }
      destruct (Z_lt_ge_dec (current_slide s) (len (slides s))); [lia |].
      pose proof (Hb Hm Hne). lia.
    + intros _. rewrite H3, H2. eauto.
    + intros _. eauto.
  - split; [reflexivity |]. constructor; assumption.
Qed.

Lemma session_ok_ended (s : PresentationSystem) :
  (0 <= current_slide s)%Z -> session_ok (ended s).
Proof. intros H. constructor; cbn; [exact H | discriminate ..]. Qed.

Lemma first_error_none_loaded (pages : list (exn + Image)) :
  first_error pages = None -> length (loaded pages) = length pages.
Proof.
  induction pages as [| [e | img] rest IH]; cbn; intros H.
  - reflexivity.
  - discriminate H.
  - rewrite IH by exact H. reflexivity.
Qed.

(** Entered with the mode set and a fresh frame, [load_presentation]
    returns with the session in order, whatever the conversion does. *)
Lemma load_presentation_ok (name : string) (w : gui_env) (s : PresentationSystem) :
  (0 <= current_slide s)%Z ->
  (exists c, presentation_frame s = Some (FrameLive c)) ->
  wp (load_presentation name w) (fun r s' _ => r = Val tt /\ session_ok s') s.
Proof.
  intros Hn [c Hc].
  destruct (conversion_error (conv w)) as [e |] eqn:He.
  - destruct (load_presentation_fails name w e s He) as [t Ht].
    unfold wp. rewrite Ht. split; [reflexivity |].
    apply session_ok_ended. exact Hn.
  - unfold conversion_error in He. unfold load_presentation.
    wp_go; try discriminate He.
    erewrite (wp_run (load_pages 0 l)).
    erewrite (load_pages_run l 0 []); [| reflexivity | reflexivity].
    rewrite He. cbn [result_of state_of trace_of fst snd]. simpl_state.
    wp_go.
    + split; [reflexivity |]. constructor; simpl_state; intros; eauto.
      * congruence.
      * exists (loaded l). split; [reflexivity |].
        apply (f_equal (@length Z)) in Heql0. rewrite length_range in Heql0.
        exact Heql0.
    + apply (f_equal (@length Z)) in Heql0. rewrite length_range in Heql0.
      eapply wp_mono; [apply show_current_slide_ok; simpl_state; eauto |].
      cbv beta. intros r s' t H. use_display. subst r.
      split; [reflexivity |]. constructor.
      * lia.
      * intros _ _. rewrite H1, H2. unfold len. cbn [length]. lia.
      * intros _. rewrite H3, H2. exists (loaded l). split; [reflexivity |].
        exact Heql0.
      * intros _. eauto.
Qed.

(** [start_presentation] returns with the session in order. *)
Lemma start_presentation_ok (w : gui_env) (s : PresentationSystem) :
  session_ok s -> presentation_mode s = false ->
  wp (start_presentation w) (fun r s' _ => r = Val tt /\ session_ok s') s.
Proof.
  intros [Hn Hb Hi Hf] Hm.
  unfold start_presentation. wp_go.
  - eapply wp_mono; [apply load_presentation_ok; simpl_state; eauto |].
    cbv beta. intros r s' t H. exact H.
  - split; [reflexivity |]. constructor; assumption.
Qed.

Lemma session_ok_navigation (s s' : PresentationSystem) :
  session_ok s -> presentation_mode s' = false -> current_slide s' = current_slide s ->
  session_ok s'.
Proof.
  intros [Hn _ _ _] Hm Hc.
  constructor; rewrite ?Hm, ?Hc; [exact Hn | discriminate ..].
Qed.

(** Routing keeps the session in order and raises nothing. *)
Lemma dispatch_ok (command : string) (w : gui_env) (s : PresentationSystem) :
  session_ok s ->
  wp (dispatch command w) (fun r s' _ => r = Val tt /\ session_ok s') s.
Proof.
  intros Hok. unfold dispatch. wp_go.
  all: try (split; [reflexivity |]).
  all: rewrite ?negb_true_iff, ?negb_false_iff in Heqb.
  all: try solve [eapply session_ok_navigation; [exact Hok | simpl_state; assumption | reflexivity]].
  all: try solve [exact Hok].
  - eapply wp_mono; [apply start_presentation_ok; assumption |].
    cbv beta. intros r s' t H. exact H.
  - eapply wp_mono; [apply show_previous_slide_ok; assumption |].
    cbv beta. intros r s' t H. exact H.
  - eapply wp_mono; [apply show_next_slide_ok; assumption |].
    cbv beta. intros r s' t H. exact H.
  - rewrite (wp_run end_presentation), end_presentation_run.
    split; [reflexivity |]. apply session_ok_ended. apply Hok.
Qed.

Lemma session_ok_stamped (now : Q) (s : PresentationSystem) :
  session_ok s -> session_ok (set_last_command_time (Some now) s).
Proof. intros [Hn Hb Hi Hf]. constructor; assumption. Qed.

(** A command keeps the session in order and raises nothing. *)
Lemma handle_command_ok (command : string) (now : Q) (w : gui_env) (s : PresentationSystem) :
  session_ok s ->
  result_of (handle_command command now w s) = Val tt /\
  session_ok (state_of (handle_command command now w s)).
Proof.
  intros Hok. destruct (debounced s now) eqn:Hd.
  - rewrite handle_command_rejected by exact Hd. split; [reflexivity | exact Hok].
  - rewrite handle_command_accepted by exact Hd.
    pose proof (dispatch_ok command w _ (session_ok_stamped now s Hok)) as H.
    unfold wp in H.
    destruct (dispatch command w (set_last_command_time (Some now) s)) as [[r s'] t].
    exact H.
Qed.

Lemma session_ok_init (presentations : list string) : session_ok (init_system presentations).
Proof. constructor; cbn; [lia | discriminate ..]. Qed.

Lemma run_commands_ok (cmds : list arrival) :
  forall s, session_ok s -> session_ok (fst (run_commands cmds s)).
Proof.
  induction cmds as [| a rest IH]; intros s Hok; cbn [run_commands].
  - exact Hok.
  - pose proof (handle_command_ok (arr_command a) (arr_time a) (arr_env a) s Hok) as [_ H].
    destruct (handle_command (arr_command a) (arr_time a) (arr_env a) s) as [[r s1] t1].
    cbn [state_of fst snd] in H. specialize (IH s1 H).
    destruct (run_commands rest s1) as [s2 t2]. exact IH.
Qed.


(** In any state [show_current_slide] leaves the cursor and the slides. *)
Lemma show_current_slide_cursor (d : display) (s : PresentationSystem) :
  wp (show_current_slide d)
     (fun _ s' _ => current_slide s' = current_slide s /\ slides s' = slides s) s.
Proof.
  unfold show_current_slide, canvas_delete_all, canvas_create_image.
  wp_go; split; reflexivity.
Qed.

Lemma show_next_slide_cursor (d : display) (s : PresentationSystem) :
  current_slide (state_of (show_next_slide d s)) =
  (if (current_slide s <? len (slides s) - 1)%Z then current_slide s + 1 else current_slide s)%Z.
Proof.
  apply (wp_run (show_next_slide d)
           (fun _ s' _ => current_slide s' =
              (if (current_slide s <? len (slides s) - 1)%Z
               then current_slide s + 1 else current_slide s)%Z)).
  unfold show_next_slide. wp_go; [| reflexivity].
  eapply wp_mono; [apply show_current_slide_cursor |].
  cbv beta. intros [[] | e | | ] s' t [H _]; simpl_state; [wp_go | ..];
    exact H.
Qed.

Lemma show_previous_slide_cursor (d : display) (s : PresentationSystem) :
  current_slide (state_of (show_previous_slide d s)) =
  (if (current_slide s >? 0)%Z then current_slide s - 1 else current_slide s)%Z.
Proof.
  apply (wp_run (show_previous_slide d)
           (fun _ s' _ => current_slide s' =
              (if (current_slide s >? 0)%Z
               then current_slide s - 1 else current_slide s)%Z)).
  unfold show_previous_slide. wp_go; [| reflexivity].
  eapply wp_mono; [apply show_current_slide_cursor |].
  cbv beta. intros [[] | e | | ] s' t [H _]; simpl_state; [wp_go | ..];
    exact H.
Qed.

(** C1, as the code has it. After any sequence of commands from start-up
    the slide index is not negative, and while presenting a presentation
    that has slides it is below their number; every command returns
    without raising. [show_next_slide] adds one unless the index is at or
    beyond the last slide, [show_previous_slide] subtracts one unless the
    index is 0; neither wraps. With no slides, [show_next_slide] leaves the
    index, and [show_previous_slide] leaves it when it is 0. *)
Theorem slide_cursor_stays_within_bounds :
  forall (presentations : list string) (cmds : list arrival),
    let s := fst (run_commands cmds (init_system presentations)) in
    (0 <= current_slide s)%Z /\
    (presentation_mode s = true -> slides s <> [] ->
     (current_slide s < len (slides s))%Z) /\
    (forall command now w, result_of (handle_command command now w s) = Val tt) /\
    (forall d,
        current_slide (state_of (show_next_slide d s)) =
        (if (current_slide s <? len (slides s) - 1)%Z
         then current_slide s + 1 else current_slide s)%Z /\
        current_slide (state_of (show_previous_slide d s)) =
        (if (current_slide s >? 0)%Z
         then current_slide s - 1 else current_slide s)%Z /\
        (presentation_mode s = true ->
         result_of (show_next_slide d s) = Val tt /\
         result_of (show_previous_slide d s) = Val tt)) /\
    (slides s = [] ->
     forall d,
       current_slide (state_of (show_next_slide d s)) = current_slide s /\
       (current_slide s = 0%Z ->
        current_slide (state_of (show_previous_slide d s)) = current_slide s)).
Proof.
  intros presentations cmds s.
  assert (Hok : session_ok s)
    by (apply run_commands_ok, session_ok_init).
  split; [apply Hok |].
  split; [apply Hok |].
  split; [intros command now w; apply handle_command_ok; exact Hok |].
  split.
  - intros d. split; [apply show_next_slide_cursor |].
    split; [apply show_previous_slide_cursor |].
    intros Hm. split.
    + exact (proj1 (proj1 (wp_run _ _ _) (show_next_slide_ok d s Hok Hm))).
    + exact (proj1 (proj1 (wp_run _ _ _) (show_previous_slide_ok d s Hok Hm))).
  - intros Hempty d. split.
    + rewrite show_next_slide_cursor, Hempty. cbn [len length Z.of_nat].
      destruct (Z.ltb_spec (current_slide s) (0 - 1)); [| reflexivity].
      pose proof (cursor_nonneg s Hok). lia.
    + intros H0. rewrite show_previous_slide_cursor, H0. reflexivity.
Qed.

(** C1 as stated fails on the clause for a presentation without slides.
    A presentation of three slides is shown up to its third slide and
    ended; the next one converts to a document without pages, so the
    session presents no slides with the index still 2, and UP moves it
    to 1. *)
Lemma stale_cursor_moves_without_slides :
  let shows := {| canvas_ready := true; screen_ready := true; draw_error := None |} in
  let three := {| conv := {| libreoffice := None; pdf_exists := true;
                             fitz_open := inr [inr 1%nat; inr 2%nat; inr 3%nat] |};
                  disp := shows |} in
  let none := {| conv := {| libreoffice := None; pdf_exists := true;
                            fitz_open := inr [] |};
                 disp := shows |} in
  let cmds := [ {| arr_command := "SELECT"; arr_time := 0; arr_env := three |};
                {| arr_command := "DOWN"; arr_time := 1; arr_env := three |};
                {| arr_command := "DOWN"; arr_time := 2; arr_env := three |};
                {| arr_command := "SELECT"; arr_time := 3; arr_env := three |};
                {| arr_command := "DOWN"; arr_time := 4; arr_env := none |};
                {| arr_command := "SELECT"; arr_time := 5; arr_env := none |} ] in
  let s := fst (run_commands cmds (init_system ["a.pptx"; "b.pptx"])) in
  let r := handle_command "UP" 6 none s in
  presentation_mode s = true /\
  slides s = [] /\
  current_slide s = 2%Z /\
  rejected (trace_of r) = false /\
  current_slide (state_of r) = 1%Z /\
  current_slide (state_of r) <> current_slide s.
Proof.
  cbv zeta. repeat split. intros H. discriminate H.
Qed.

(* ===================================================================== *)
(** ** The BLE link: connecting *)
(* ===================================================================== *)

Ltac run_link :=
  cbv beta iota delta
    [bind catch get ret raise Monad_M MonadExc_M MonadState_M
     m_bind m_catch m_get m_ret m_raise blocked
     logger_info logger_warning logger_error time_sleep root_after emit update
     call Peripheral returns_none].

(** An external call takes the next answer of the script. *)
Lemma call_run (ev : event) (s : Link) :
  call ev s =
  match script s with
  | [] => (Blocked, s, [ev])
  | Raises e :: rest => (Exc e, set_script rest s, [ev])
  | a :: rest => (Val a, set_script rest s, [ev])
  end.
Proof.
  run_link. destruct (script s) as [| [] rest]; reflexivity.
Qed.

(** C6. One connection attempt asks for the random address type first.
    If that call returns, no other call is made. If it raises, the public
    address type is asked for, once: when that call returns the attempt has
    connected, and when it raises too the attempt fails with that
    exception, and the loop logs it as failed. *)
Theorem connect_attempt_falls_back_once :
  forall (retry : Z) (c : bool) (old : option Z) (p : Z) (e1 e2 : exn) (rest : list answer),
    connect_attempt retry
      {| connected := c; peripheral := old; script := Returns_peripheral p :: rest |} =
    (Val tt,
     {| connected := true; peripheral := Some p; script := rest |},
     [EvLog INFO (Connecting_attempt (retry + 1) max_retries);
      EvConnect ADDR_TYPE_RANDOM;
      EvLog INFO Connected]) /\
    connect_attempt retry
      {| connected := c; peripheral := old;
         script := Raises e1 :: Returns_peripheral p :: rest |} =
    (Val tt,
     {| connected := true; peripheral := Some p; script := rest |},
     [EvLog INFO (Connecting_attempt (retry + 1) max_retries);
      EvConnect ADDR_TYPE_RANDOM;
      EvConnect ADDR_TYPE_PUBLIC;
      EvLog INFO Connected]) /\
    connect_attempt retry
      {| connected := c; peripheral := old; script := Raises e1 :: Raises e2 :: rest |} =
    (Exc e2,
     {| connected := c; peripheral := old; script := rest |},
     [EvLog INFO (Connecting_attempt (retry + 1) max_retries);
      EvConnect ADDR_TYPE_RANDOM;
      EvConnect ADDR_TYPE_PUBLIC]) /\
    connect_iteration retry
      {| connected := c; peripheral := old; script := Raises e1 :: Raises e2 :: rest |} =
    (if (retry <? max_retries - 1)%Z then Val false else Exc e2,
     {| connected := c; peripheral := old; script := rest |},
     [EvLog INFO (Connecting_attempt (retry + 1) max_retries);
      EvConnect ADDR_TYPE_RANDOM;
      EvConnect ADDR_TYPE_PUBLIC;
      EvLog ERROR (Connection_attempt_failed (retry + 1) e2)]
     ++ (if (retry <? max_retries - 1)%Z then [EvSleep retry_delay] else [])).
Proof.
  intros retry c old p e1 e2 rest.
  repeat split.
  unfold connect_iteration, connect_attempt. run_link.
  change (max_retries - 1)%Z with 2%Z.
  destruct (retry <? 2)%Z; reflexivity.
Qed.

Lemma connect_iteration_spec (retry : Z) (s : Link) :
  wp (connect_iteration retry) (iteration_post retry s) s.
Proof.
  unfold wp, iteration_post, connect_iteration, connect_attempt. run_link.
  change (max_retries - 1)%Z with 2%Z.
  destruct s as [c old [| a rest]];
    [| destruct a; [destruct rest as [| b rest]; [| destruct b] | ..]];
    destruct (retry <? 2)%Z eqn:Hretry;
    cbn; repeat split; eauto; lia.
Qed.

Lemma count_app (p : event -> bool) (t1 t2 : list event) :
  count p (t1 ++ t2) = (count p t1 + count p t2)%nat.
Proof. unfold count. rewrite filter_app, length_app. reflexivity. Qed.

Lemma attempts_and_sleeps_app (t1 t2 : list event) :
  attempts_and_sleeps (t1 ++ t2) = attempts_and_sleeps t1 ++ attempts_and_sleeps t2.
Proof. apply filter_app. Qed.

Lemma attempts_count (t : list event) :
  count is_attempt_start t = count is_attempt_start (attempts_and_sleeps t).
Proof.
  unfold count, attempts_and_sleeps. induction t as [| ev t IH]; [reflexivity |].
  cbn [filter]. destruct (is_attempt_start ev) eqn:E; cbn [orb].
  - cbn [filter]. rewrite E. cbn [length]. rewrite IH. reflexivity.
  - destruct (is_sleep ev); [cbn [filter]; rewrite E |]; exact IH.
Qed.

Ltac use_iteration H :=
  unfold iteration_post in H;
  destruct H as (? & ? & ? & ? & H);
  repeat match type of H with _ /\ _ => let X := fresh in destruct H as [X H] end.

Ltac prefix_of_three :=
  first [ exists 0%nat; reflexivity | exists 1%nat; reflexivity
        | exists 2%nat; reflexivity | exists 3%nat; reflexivity
        | exists 4%nat; reflexivity | exists 5%nat; reflexivity ].

Ltac loop_done :=
  try unfold loop_post;
  repeat match goal with H : _ /\ _ |- _ => destruct H end;
  rewrite attempts_count;
  rewrite ?app_nil_r, ?count_app, ?attempts_and_sleeps_app;
  repeat match goal with H : attempts_and_sleeps _ = _ |- _ => rewrite H; clear H end;
  repeat match goal with H : count _ _ = _ |- _ => rewrite H; clear H end;
  cbn;
  repeat split;
  first [ prefix_of_three | congruence | lia | eassumption ].

Ltac next_iteration :=
  apply wp_bind; eapply wp_mono; [apply connect_iteration_spec |];
  let r := fresh "r" in
  let s := fresh "s" in
  let t := fresh "t" in
  let H := fresh "H" in
  intros r s t H; use_iteration H;
  destruct r as [[|] | ? | | ]; cbv beta iota delta [after_bind];
  [ apply wp_ret | | | | ]; try contradiction;
  try solve [destruct H as [H _]; discriminate H].

Lemma connect_loop_spec (s : Link) :
  wp (connect_loop (range max_retries)) (loop_post s) s.
Proof.
  change (range max_retries) with [0; 1; 2]%Z. cbn [connect_loop].
  next_iteration; try solve [loop_done].
  next_iteration; try solve [loop_done].
  next_iteration; try solve [loop_done].
Qed.

(* ===================================================================== *)
(** ** The BLE link: the connected session *)
(* ===================================================================== *)

Ltac link_trace :=
  rewrite ?existsb_app;
  cbn [existsb app orb connect_event is_attempt_start is_connect_call
       is_connected_log is_retry_failure];
  repeat match goal with H : existsb connect_event _ = false |- _ => rewrite H end;
  reflexivity.

Ltac link_done :=
  unfold link_frame in *; simpl_state;
  repeat match goal with H : _ /\ _ |- _ => destruct H end;
  repeat split;
  first [ congruence | lia | link_trace | discriminate | eassumption ].

(** A call other than the construction of a peripheral. *)
Lemma call_frame (ev : event) (s : Link) :
  connect_event ev = false ->
  wp (call ev)
     (fun r s' t =>
        link_frame s s' t /\ r <> OutOfFuel /\
        (r <> Blocked -> (length (script s') < length (script s))%nat)) s.
Proof.
  intros Hev. unfold wp. rewrite call_run.
  destruct s as [c p [| [] rest]]; unfold link_frame; simpl_state;
    cbn [existsb length]; rewrite Hev;
    repeat split; try discriminate; try congruence; lia.
Qed.

Lemma returns_none_frame (ev : event) (s : Link) :
  connect_event ev = false ->
  wp (returns_none ev)
     (fun r s' t =>
        link_frame s s' t /\ r <> OutOfFuel /\
        (r <> Blocked -> (length (script s') < length (script s))%nat)) s.
Proof.
  intros Hev. unfold returns_none. apply wp_bind.
  eapply wp_mono; [apply call_frame; exact Hev |].
  intros [a | e | | ] s' t (Hf & Hr & Hl); cbv beta iota delta [after_bind].
  - destruct a; wp_go.
    all: split; [link_done |].
    all: split; [discriminate |].
    all: intros Hb; try congruence; apply Hl; discriminate.
  - split; [exact Hf |]. split; [discriminate |]. intros _. apply Hl. discriminate.
  - split; [exact Hf |]. split; [discriminate |]. intros Hb. congruence.
  - congruence.
Qed.

Lemma link_frame_refl (s : Link) : link_frame s s [].
Proof. unfold link_frame. repeat split. lia. Qed.

Lemma link_frame_trans (s s1 s2 : Link) (t1 t2 : list event) :
  link_frame s s1 t1 -> link_frame s1 s2 t2 -> link_frame s s2 (t1 ++ t2).
Proof.
  unfold link_frame. intros (A1 & B1 & C1 & D1) (A2 & B2 & C2 & D2).
  repeat split; try congruence; try lia.
  rewrite existsb_app, D1, D2. reflexivity.
Qed.

Lemma link_frame_emit (s : Link) (ev : event) :
  connect_event ev = false -> link_frame s s [ev].
Proof.
  intros H. unfold link_frame. repeat split; [lia |].
  cbn [existsb]. rewrite H. reflexivity.
Qed.

(** [handleNotification] takes nothing from the script. *)
Lemma handleNotification_frame (data : list Byte.byte) (s : Link) :
  wp (handleNotification data)
     (fun r s' t => link_frame s s' t /\ s' = s /\ r <> OutOfFuel /\ r <> Blocked) s.
Proof.
  unfold handleNotification. destruct (decode data) as [command |]; wp_go.
  - split; [link_done |]. repeat split; discriminate.
  - split; [link_done |]. repeat split; discriminate.
Qed.

Lemma waitForNotifications_frame (timeout : Q) (s : Link) :
  wp (waitForNotifications timeout)
     (fun r s' t =>
        link_frame s s' t /\ r <> OutOfFuel /\
        (r <> Blocked -> (length (script s') < length (script s))%nat)) s.
Proof.
  unfold waitForNotifications. apply wp_bind.
  eapply wp_mono; [apply call_frame; reflexivity |].
  intros [a | e | | ] s1 t1 (Hf & Hr & Hl); cbv beta iota delta [after_bind].
  - assert (Hlt : (length (script s1) < length (script s))%nat)
      by (apply Hl; discriminate).
    destruct a; wp_go.
    all: try (split; [link_done |]; split; [discriminate |]; intros Hb;
              first [congruence | exact Hlt]).
    eapply wp_mono; [apply handleNotification_frame |].
    intros r s2 t2 (Hf2 & -> & Hr2 & Hb2).
    destruct r as [[] | e | | ]; cbv beta iota; [wp_go | ..]; try congruence.
    + split; [| split; [discriminate | intros _; exact Hlt]].
      rewrite app_nil_r. eapply link_frame_trans; eassumption.
    + split; [| split; [discriminate | intros _; exact Hlt]].
      eapply link_frame_trans; eassumption.
  - split; [exact Hf |]. split; [discriminate |]. intros _. apply Hl. discriminate.
  - split; [exact Hf |]. split; [discriminate |]. intros Hb. congruence.
  - congruence.
Qed.

(** The wait loop of a connected session never returns: it raises, waits
    on the outside world, or is cut by its bound, and the bound is not
    reached when it exceeds the length of the script. *)
Lemma wait_loop_spec (fuel : nat) :
  forall s : Link,
    connected s = true ->
    wp (wait_loop fuel)
       (fun r s' t =>
          link_frame s s' t /\
          (forall a, r <> Val a) /\
          ((length (script s) < fuel)%nat -> r <> OutOfFuel)) s.
Proof.
  induction fuel as [| fuel IH]; intros s Hc; cbn [wait_loop].
  - wp_go. split; [apply link_frame_refl |]. split; [discriminate | lia].
  - apply wp_bind, wp_get. cbv beta iota delta [after_bind]. rewrite Hc.
    wp_go.
    eapply wp_mono; [apply waitForNotifications_frame |].
    intros r s1 t1 (Hf & Hr & Hl).
    assert (Hc1 : connected s1 = true) by (destruct Hf as [-> _]; exact Hc).
    destruct r as [got | e | | ]; cbv beta iota.
    + assert (Hlt : (length (script s1) < length (script s))%nat)
        by (apply Hl; discriminate).
      destruct got; wp_go.
      * eapply wp_mono; [apply IH; exact Hc1 |].
        intros r s2 t2 (Hf2 & Hv & Ho).
        split; [link_done |].
        split; [exact Hv | intros Hlen; apply Ho; lia].
      * eapply wp_mono; [apply IH; simpl_state; exact Hc1 |].
        intros r s2 t2 (Hf2 & Hv & Ho).
        split; [link_done |].
        split; [exact Hv | intros Hlen; apply Ho; lia].
    + wp_go. split; [link_done |]. split; discriminate.
    + split; [link_done |]. split; discriminate.
    + congruence.
Qed.

Lemma find_cccd_frame (ds : list descriptor) (s : Link) :
  wp (find_cccd ds) (fun r s' t => link_frame s s' t /\ r <> OutOfFuel) s.
Proof.
  induction ds as [| d rest IH]; cbn [find_cccd]; wp_go.
  - split; [link_done | discriminate].
  - split; [link_done | discriminate].
  - eapply wp_mono; [apply IH |].
    intros r s' t (Hf & Hr). split; [link_done | exact Hr].
Qed.

Lemma writeCharacteristic_frame (handle : Z) (withResponse : bool) (s : Link) :
  wp (writeCharacteristic handle withResponse)
     (fun r s' t => link_frame s s' t /\ r <> OutOfFuel) s.
Proof.
  eapply wp_mono; [apply returns_none_frame; reflexivity |].
  intros r s' t (Hf & Hr & _). auto.
Qed.

Lemma enable_notifications_frame (cccd_handle : Z) (retries : list Z) :
  forall s : Link,
    wp (enable_notifications cccd_handle retries)
       (fun r s' t => link_frame s s' t /\ r <> OutOfFuel) s.
Proof.
  induction retries as [| notify_retry rest IH]; intros s; cbn [enable_notifications].
  - wp_go. split; [link_done | discriminate].
  - wp_go.
    eapply wp_mono; [apply writeCharacteristic_frame |].
    intros r s1 t1 (Hf & Hr).
    destruct r as [[] | e | | ]; cbv beta iota; [| | | congruence].
    + wp_go. split; [link_done | discriminate].
    + wp_go.
      * eapply wp_mono; [apply IH |].
        intros r s2 t2 (Hf2 & Hr2). split; [link_done | exact Hr2].
      * split; [link_done | discriminate].
    + split; [link_done | discriminate].
Qed.

Lemma subscribe_frame (s : Link) :
  wp subscribe (fun r s' t => link_frame s s' t /\ r <> OutOfFuel) s.
Proof.
  unfold subscribe, getServiceByUUID, getCharacteristics, getDescriptors.
  apply wp_bind.
  eapply wp_mono; [apply returns_none_frame; reflexivity |].
  intros r s1 t1 (Hf1 & Hr1 & _).
  destruct r as [[] | e | | ]; cbv beta iota delta [after_bind];
    [| split; [link_done | discriminate] .. | congruence].
  do 2 apply wp_bind.
  eapply wp_mono; [apply call_frame; reflexivity |].
  intros r s2 t2 (Hf2 & Hr2 & _).
  destruct r as [a | e | | ]; cbv beta iota delta [after_bind];
    [| split; [link_done | discriminate] .. | congruence].
  destruct a; wp_go; try (split; [link_done | discriminate]).
  all: eapply wp_mono; [apply call_frame; reflexivity |].
  all: intros r s3 t3 (Hf3 & Hr3 & _).
  all: destruct r as [a | e | | ]; cbv beta iota delta [after_bind];
    [| split; [link_done | discriminate] .. | congruence].
  all: destruct a; wp_go; try (split; [link_done | discriminate]).
  all: eapply wp_mono; [apply find_cccd_frame |].
  all: intros r s4 t4 (Hf4 & Hr4).
  all: destruct r as [found | e | | ]; cbv beta iota delta [after_bind];
    [| split; [link_done | discriminate] .. | congruence].
  all: destruct found; wp_go.
  all: eapply wp_mono; [apply enable_notifications_frame |].
  all: intros r s5 t5 (Hf5 & Hr5).
  all: destruct r as [[] | e | | ]; cbv beta iota delta [after_bind];
    [wp_go | ..]; try congruence; (split; [link_done | discriminate]).
Qed.

(** A connected session never returns either. *)
Lemma session_spec (fuel : nat) (s : Link) :
  connected s = true ->
  wp (session fuel)
     (fun r s' t =>
        link_frame s s' t /\
        (forall a, r <> Val a) /\
        ((length (script s) < fuel)%nat -> r <> OutOfFuel)) s.
Proof.
  intros Hc. unfold session.
  apply wp_bind, wp_get. cbv beta iota delta [after_bind]. rewrite Hc.
  wp_go.
  eapply wp_mono; [apply subscribe_frame |].
  intros r s1 t1 (Hf1 & Hr1).
  destruct r as [[] | e | | ]; cbv beta iota; [| | | congruence].
  - eapply wp_mono; [apply wait_loop_spec; destruct Hf1 as [-> _]; exact Hc |].
    intros r s2 t2 (Hf2 & Hv & Ho).
    assert (Hlen : (length (script s1) <= length (script s))%nat) by apply Hf1.
    destruct r as [a | e | | ]; cbv beta iota.
    + exfalso. exact (Hv a eq_refl).
    + wp_go. split; [link_done |]. split; discriminate.
    + split; [link_done |]. split; discriminate.
    + split; [link_done |]. split; [discriminate |].
      intros Hlt. apply Ho. lia.
  - wp_go. split; [link_done |]. split; discriminate.
  - split; [link_done |]. split; discriminate.
Qed.

Lemma cleanup_spec (e : exn) (s : Link) :
  wp (cleanup e) (cleanup_post e s) s.
Proof.
  unfold wp, cleanup_post, cleanup, disconnect. run_link.
  destruct s as [c [p |] scr]; cbn [peripheral script].
  - destruct scr as [| [] rest]; cbn; repeat split; try lia; discriminate.
  - cbn. repeat split. lia.
Qed.

Lemma no_connect_events_count (t : list event) :
  existsb connect_event t = false ->
  count is_attempt_start t = 0%nat /\
  count is_connect_call t = 0%nat /\
  count is_connected_log t = 0%nat /\
  count is_retry_failure t = 0%nat.
Proof.
  unfold count. induction t as [| ev t IH]; cbn [existsb filter]; intros H.
  - repeat split.
  - apply orb_false_iff in H. destruct H as [Hev Ht].
    unfold connect_event in Hev.
    apply orb_false_iff in Hev. destruct Hev as [Hev H4].
    apply orb_false_iff in Hev. destruct Hev as [Hev H3].
    apply orb_false_iff in Hev. destruct Hev as [H1 H2].
    rewrite H1, H2, H3, H4. apply IH. exact Ht.
Qed.

Ltac no_events H :=
  let A := fresh in let B := fresh in let C := fresh in let D := fresh in
  destruct (no_connect_events_count _ H) as (A & B & C & D).

(** One iteration of [while True] from a disconnected link: no exception
    leaves it, and when it completes the handler has run. *)
Lemma cycle_spec (fuel : nat) (s : Link) :
  connected s = false ->
  wp (cycle fuel) (cycle_post fuel s) s.
Proof.
  intros Hc. unfold cycle.
  apply wp_catch. apply wp_bind, wp_get. cbv beta iota delta [after_bind].
  rewrite Hc. cbn [negb].
  apply wp_bind. eapply wp_mono; [apply connect_loop_spec |].
  intros r s1 t1 (_ & Ha & Hcc & Hcl & H).
  destruct r as [[] | e | | ]; cbv beta iota delta [after_bind after_catch].
  - destruct H as (Hc1 & _ & Hlen1).
    eapply wp_mono; [apply session_spec; exact Hc1 |].
    intros r s2 t2 ((_ & _ & Hlen2 & Hq2) & Hv & Ho). no_events Hq2.
    destruct r as [a | e | | ]; cbv beta iota.
    + exfalso. exact (Hv a eq_refl).
    + eapply wp_mono; [apply cleanup_spec |].
      intros r s3 t3 (Hc3 & Hlen3 & Hq3 & H3). no_events Hq3.
      unfold cycle_post. rewrite !app_nil_l, !count_app.
      repeat split; try lia.
      destruct r as [[] | | | ]; try contradiction; [| lia].
      destruct H3 as [Hp ->].
      repeat split; [exact Hc3 | exact Hp | lia |].
      exists e, (is_some (peripheral s2)), (t1 ++ t2). reflexivity.
    + unfold cycle_post. rewrite !app_nil_l, !count_app. repeat split; lia.
    + unfold cycle_post. rewrite !app_nil_l, !count_app. repeat split; try lia.
      destruct (Nat.lt_ge_cases (length (script s1)) fuel) as [Hlt | Hge]; [| lia].
      exfalso. exact (Ho Hlt eq_refl).
  - destruct H as (Hc1 & Hp1 & Hlen1 & _).
    eapply wp_mono; [apply cleanup_spec |].
    intros r s3 t3 (Hc3 & Hlen3 & Hq3 & H3). no_events Hq3.
    unfold cycle_post. rewrite !app_nil_l, !count_app.
    repeat split; try lia.
    destruct r as [[] | | | ]; try contradiction; [| lia].
    destruct H3 as [Hp ->].
    repeat split; [exact Hc3 | exact Hp | lia |].
    exists e, (is_some (peripheral s1)), t1. reflexivity.
  - destruct H as (_ & _ & Hlen1).
    unfold cycle_post. rewrite !app_nil_l. repeat split; lia.
  - contradiction.
Qed.

(* ===================================================================== *)
(** ** The BLE link: the supervision loop *)
(* ===================================================================== *)







Lemma starts_catch {St A} (pre : list event) (m : M St A) (h : exn -> M St A) (s : St) :
  starts_with pre m s -> starts_with pre (catch m h) s.
Proof.
  unfold starts_with. cbn. unfold m_catch, trace_of. intros [t E].
  destruct (m s) as [[[a | e | | ] s1] t1]; cbn [snd] in *; subst t1; eauto.
  destruct (h e s1) as [[r s2] t2]. exists (t ++ t2). cbn [snd].
  rewrite app_assoc. reflexivity.
Qed.

Lemma starts_emit_bind {St B} (ev : event) (pre : list event) (k : unit -> M St B) (s : St) :
  starts_with pre (k tt) s -> starts_with (ev :: pre) (bind (emit ev) k) s.
Proof.
  unfold starts_with. cbn. unfold m_bind, emit, trace_of. intros [t E].
  destruct (k tt s) as [[r s2] t2]. cbn [snd] in *. subst t2.
  exists t. reflexivity.
Qed.

Lemma starts_get_bind {St B} (pre : list event) (k : St -> M St B) (s : St) :
  starts_with pre (k s) s -> starts_with pre (bind get k) s.
Proof.
  unfold starts_with. cbn. unfold m_bind, m_get, trace_of. intros [t E].
  destruct (k s s) as [[r s2] t2]. cbn [snd] in *. subst t2.
  exists t. reflexivity.
Qed.








Lemma count_cons (p : event -> bool) (ev : event) (t : list event) :
  count p (ev :: t) = ((if p ev then 1 else 0) + count p t)%nat.
Proof. unfold count. cbn [filter]. destruct (p ev); reflexivity. Qed.




(** After the connection phase nothing of that phase is logged or called
    any more in the cycle. *)
Lemma session_cleanup_quiet (fuel : nat) (s : Link) :
  connected s = true ->
  wp (catch (session fuel) cleanup) (fun _ _ t => existsb connect_event t = false) s.
Proof.
  intros Hc. apply wp_catch.
  eapply wp_mono; [apply session_spec; exact Hc |].
  intros r s1 t1 ((_ & _ & _ & Hq) & _ & _).
  destruct r as [a | e | | ]; cbv beta iota delta [after_catch]; try exact Hq.
  eapply wp_mono; [apply cleanup_spec |].
  intros r s2 t2 (_ & _ & Hq2 & _). cbv beta.
  rewrite existsb_app, Hq, Hq2. reflexivity.
Qed.

(** Sequencing under a handler, when the first part returns. *)
Lemma catch_bind_val {St A B} (m : M St A) (k : A -> M St B) (h : exn -> M St B)
  (s s1 : St) (a : A) (t1 : list event) :
  m s = (Val a, s1, t1) ->
  catch (bind m k) h s =
  match catch (k a) h s1 with (r, s2, t2) => (r, s2, t1 ++ t2) end.
Proof.
  intros E. cbn. unfold m_catch, m_bind. rewrite E.
  destruct (k a s1) as [[[b | e | | ] s2] t2]; try reflexivity.
  destruct (h e s2) as [[r s3] t3]. rewrite app_assoc. reflexivity.
Qed.

(** The connection phase of two failed attempts and a third that connects
    at its first call ([fallback = None]) or at its fallback call. *)
Lemma connect_loop_third_attempt (e1 e2 e3 e4 : exn) (fallback : option exn)
  (p : Z) (rest : list answer) :
  connect_loop (range max_retries)
    (init_link (Raises e1 :: Raises e2 :: Raises e3 :: Raises e4
                :: match fallback with
                   | Some e5 => Raises e5 :: Returns_peripheral p :: rest
                   | None => Returns_peripheral p :: rest
                   end)) =
  (Val tt, {| connected := true; peripheral := Some p; script := rest |},
   [EvLog INFO (Connecting_attempt 1 3);
    EvConnect ADDR_TYPE_RANDOM; EvConnect ADDR_TYPE_PUBLIC;
    EvLog ERROR (Connection_attempt_failed 1 e2); EvSleep 2;
    EvLog INFO (Connecting_attempt 2 3);
    EvConnect ADDR_TYPE_RANDOM; EvConnect ADDR_TYPE_PUBLIC;
    EvLog ERROR (Connection_attempt_failed 2 e4); EvSleep 2;
    EvLog INFO (Connecting_attempt 3 3);
    EvConnect ADDR_TYPE_RANDOM]
   ++ match fallback with Some _ => [EvConnect ADDR_TYPE_PUBLIC] | None => [] end
   ++ [EvLog INFO Connected]).
Proof. destruct fallback; reflexivity. Qed.

Lemma cycle_not_connected (fuel : nat) (s : Link) :
  connected s = false ->
  cycle fuel s = catch (connect_loop (range max_retries) ;; session fuel) cleanup s.
Proof.
  intros Hc.
  assert (E : (s0 <- get ;;
               if negb (connected s0)
               then connect_loop (range max_retries) ;; session fuel
               else ret tt) s =
              (connect_loop (range max_retries) ;; session fuel) s).
  { unfold bind at 1, get. cbn [Monad_M MonadState_M]. unfold m_bind at 1, m_get.
    rewrite Hc. cbn [negb].
    destruct ((connect_loop (range max_retries) ;; session fuel) s) as [[[] s1] t1];
      reflexivity. }
  unfold cycle, catch. cbn [MonadExc_M]. unfold m_catch. rewrite E. reflexivity.
Qed.

(** C5. A connection phase makes at most three attempts (six calls), with
    a sleep of 2 between two consecutive attempts and none elsewhere.
    When two attempts fail and the third connects, directly or by its
    fallback, the cycle logs "Connected!" once and a failed attempt twice,
    whatever comes next, and has slept 2 after each failure. *)
Theorem connect_retry_three_attempts :
  forall (fuel : nat),
    (forall s : Link,
        (exists k, attempts_and_sleeps (trace_of (connect_loop (range max_retries) s)) =
                   firstn k three_attempts) /\
        (count is_attempt_start (trace_of (connect_loop (range max_retries) s)) <= 3)%nat /\
        (count is_connect_call (trace_of (connect_loop (range max_retries) s)) <= 6)%nat) /\
    (forall s : Link,
        connected s = false ->
        (count is_attempt_start (trace_of (cycle fuel s)) <= 3)%nat /\
        (count is_connect_call (trace_of (cycle fuel s)) <= 6)%nat /\
        (count is_connected_log (trace_of (cycle fuel s)) <= 1)%nat) /\
    (forall (e1 e2 e3 e4 : exn) (fallback : option exn) (p : Z) (rest : list answer),
        let r := cycle fuel
                   (init_link (Raises e1 :: Raises e2 :: Raises e3 :: Raises e4
                               :: match fallback with
                                  | Some e5 => Raises e5 :: Returns_peripheral p :: rest
                                  | None => Returns_peripheral p :: rest
                                  end)) in
        count is_connected_log (trace_of r) = 1%nat /\
        count is_retry_failure (trace_of r) = 2%nat /\
        count is_attempt_start (trace_of r) = 3%nat /\
        starts_with
          ([EvLog INFO (Connecting_attempt 1 3);
            EvConnect ADDR_TYPE_RANDOM; EvConnect ADDR_TYPE_PUBLIC;
            EvLog ERROR (Connection_attempt_failed 1 e2); EvSleep 2;
            EvLog INFO (Connecting_attempt 2 3);
            EvConnect ADDR_TYPE_RANDOM; EvConnect ADDR_TYPE_PUBLIC;
            EvLog ERROR (Connection_attempt_failed 2 e4); EvSleep 2;
            EvLog INFO (Connecting_attempt 3 3);
            EvConnect ADDR_TYPE_RANDOM]
           ++ match fallback with Some _ => [EvConnect ADDR_TYPE_PUBLIC] | None => [] end
           ++ [EvLog INFO Connected;
               EvAfter (Config_ble_status Status_Connected)])
          (cycle fuel)
          (init_link (Raises e1 :: Raises e2 :: Raises e3 :: Raises e4
                      :: match fallback with
                         | Some e5 => Raises e5 :: Returns_peripheral p :: rest
                         | None => Returns_peripheral p :: rest
                         end))).
Proof.
  intros fuel. split; [| split].
  - intros s.
    pose proof (proj1 (wp_run _ _ _) (connect_loop_spec s)) as H.
    unfold loop_post in H. destruct H as (H1 & H2 & H3 & _). auto.
  - intros s Hc.
    pose proof (proj1 (wp_run _ _ _) (cycle_spec fuel s Hc)) as H.
    unfold cycle_post in H. destruct H as (H1 & H2 & H3 & _). auto.
  - intros e1 e2 e3 e4 fallback p rest r. unfold r. clear r.
    unfold starts_with at 1.
    rewrite cycle_not_connected by reflexivity.
    rewrite (catch_bind_val _ _ _ _ _ _ _ (connect_loop_third_attempt e1 e2 e3 e4 fallback p rest)).
    pose proof (session_cleanup_quiet fuel
                  {| connected := true; peripheral := Some p; script := rest |} eq_refl) as Hq.
    assert (Hstart : starts_with [EvAfter (Config_ble_status Status_Connected)]
                       (catch (session fuel) cleanup)
                       {| connected := true; peripheral := Some p; script := rest |}).
    { apply starts_catch. unfold session. apply starts_get_bind. cbn [connected].
      apply (starts_emit_bind (EvAfter (Config_ble_status Status_Connected)) []).
      exists (trace_of ((time_sleep (1 # 2) ;; emit EvSetDelegate ;;
                         catch (subscribe ;; wait_loop fuel)
                               (fun e => logger_error (Service_setup_error e) ;; raise e))
                          {| connected := true; peripheral := Some p; script := rest |})).
      reflexivity. }
    unfold wp in Hq. unfold starts_with in Hstart |- *.
    destruct (catch (session fuel) cleanup
                {| connected := true; peripheral := Some p; script := rest |})
      as [[r s'] t].
    cbn [trace_of snd] in *.
    no_events Hq.
    rewrite !count_app.
    repeat split.
    + rewrite H1. destruct fallback; reflexivity.
    + rewrite H2. destruct fallback; reflexivity.
    + rewrite H. destruct fallback; reflexivity.
    + destruct Hstart as [t' ->]. exists t'.
      destruct fallback; cbn [app]; reflexivity.
Qed.

(* ===================================================================== *)
(** ** Notifications that carry no token *)
(* ===================================================================== *)

Lemma handleNotification_decoded (data : list Byte.byte) (command : string) (s : Link) :
  decode data = Some command ->
  handleNotification data s =
  (Val tt, s, [EvLog INFO (Received_command command);
               EvAfter (Call_handle_command command)]).
Proof. intros E. unfold handleNotification. rewrite E. reflexivity. Qed.

(** A notification that decodes does not end the wait loop. *)
Lemma wait_loop_notification (fuel : nat) (p : option Z) (data : list Byte.byte)
  (command : string) (rest : list answer) :
  decode data = Some command ->
  wait_loop (S fuel) {| connected := true; peripheral := p;
                        script := Notification data :: rest |} =
  match wait_loop fuel {| connected := true; peripheral := p; script := rest |} with
  | (r, s', t) =>
      (r, s', [EvWait 1; EvLog INFO (Received_command command);
               EvAfter (Call_handle_command command)] ++ t)
  end.
Proof.
  intros E. cbn [wait_loop]. unfold waitForNotifications.
  run_link. simpl_state. cbv beta iota.
  rewrite (handleNotification_decoded data command _ E).
  unfold set_script. simpl_state.
  destruct (wait_loop fuel {| connected := true; peripheral := p; script := rest |})
    as [[[] s'] t]; reflexivity.
Qed.

(** C7, as the code has it. A payload that decodes to something other
    than UP, DOWN and SELECT is logged at level INFO and handed to
    [handle_command]; the wait loop goes on and the link stays up.
    [handle_command] raises nothing, routes it to nothing and logs no
    warning; when the debounce accepts it, it stamps the arrival time, and
    that is the only change to the application state. *)
Theorem unknown_token_is_not_fatal :
  forall (data : list Byte.byte) (command : string),
    decode data = Some command ->
    is_token command = false ->
    (forall s : Link,
        handleNotification data s =
        (Val tt, s, [EvLog INFO (Received_command command);
                     EvAfter (Call_handle_command command)])) /\
    (forall (fuel : nat) (p : option Z) (rest : list answer),
        wait_loop (S fuel) {| connected := true; peripheral := p;
                              script := Notification data :: rest |} =
        match wait_loop fuel {| connected := true; peripheral := p; script := rest |} with
        | (r, s', t) =>
            (r, s', [EvWait 1; EvLog INFO (Received_command command);
                     EvAfter (Call_handle_command command)] ++ t)
        end) /\
    (forall (app : PresentationSystem) (now : Q) (w : gui_env),
        result_of (handle_command command now w app) = Val tt /\
        existsb is_warning (trace_of (handle_command command now w app)) = false /\
        state_of (handle_command command now w app) =
        (if debounced app now then app else set_last_command_time (Some now) app)).
Proof.
  intros data command Hd Ht. split; [| split].
  - intros s. apply handleNotification_decoded. exact Hd.
  - intros fuel p rest. apply wait_loop_notification. exact Hd.
  - intros app now w. destruct (debounced app now) eqn:E.
    + rewrite handle_command_rejected by exact E. repeat split.
    + rewrite handle_command_unknown by assumption. repeat split.
Qed.

Lemma unknown_token_is_not_fatal_witness :
  let data := list_byte_of_string "LEFT" in
  decode data = Some "LEFT" /\
  is_token "LEFT" = false /\
  forall s : Link,
    handleNotification data s =
    (Val tt, s, [EvLog INFO (Received_command "LEFT");
                 EvAfter (Call_handle_command "LEFT")]).
Proof.
  intros data.
  exact (conj eq_refl (conj eq_refl
           (proj1 (unknown_token_is_not_fatal data "LEFT" eq_refl eq_refl)))).
Defined.

(** C7 as stated fails. The payload "LEFT" is no token, yet handling it
    logs no warning and changes the application state: it stamps the
    debounce clock, so that a DOWN half a time unit later is dropped. And
    a payload that is not valid UTF-8 raises in the delegate: the cycle
    ends in the handler, which disconnects. *)
Lemma unknown_token_changes_state :
  let app := init_system ["a.pptx"; "b.pptx"] in
  let w := {| conv := {| libreoffice := None; pdf_exists := true;
                         fitz_open := inr [inr 1%nat] |};
              disp := {| canvas_ready := true; screen_ready := true;
                         draw_error := None |} |} in
  let r := handle_command "LEFT" 5 w app in
  decode (list_byte_of_string "LEFT") = Some "LEFT" /\
  is_token "LEFT" = false /\
  existsb is_warning (trace_of r) = false /\
  state_of r <> app /\
  last_command_time (state_of r) = Some 5%Q /\
  rejected (trace_of (handle_command "DOWN" (5 + (1 # 2)) w (state_of r))) = true /\
  rejected (trace_of (handle_command "DOWN" (5 + (1 # 2)) w app)) = false /\
  decode [Byte.xff] = None /\
  cycle 5 (init_link [Returns_peripheral 1; Returns_none; Returns_characteristics [16%Z];
                      Returns_descriptors []; Returns_none;
                      Notification [Byte.xff]; Returns_none]) =
  (Val tt, init_link [],
   [EvLog INFO (Connecting_attempt 1 3); EvConnect ADDR_TYPE_RANDOM;
    EvLog INFO Connected; EvAfter (Config_ble_status Status_Connected);
    EvSleep (1 # 2); EvSetDelegate; EvGetService; EvGetCharacteristics;
    EvGetDescriptors; EvLog INFO CCCD_not_found;
    EvLog INFO (Enabling_notifications 17); EvWrite 17 true;
    EvLog INFO Notifications_enabled; EvLog INFO Ready_to_receive_notifications;
    EvWait 1;
    EvLog ERROR (Notification_error UnicodeDecodeError);
    EvLog ERROR (Service_setup_error UnicodeDecodeError);
    EvLog ERROR (BLE_Error UnicodeDecodeError);
    EvAfter (Config_ble_status Status_Disconnected);
    EvDisconnect; EvSleep 2]).
Proof.
  cbv zeta. repeat split. intros H. discriminate H.
Qed.
